(** * Easy21 TD-learning agent: a shallow embedding of [src/td_learning.py]

    The Python class [TDLearningAgent] is embedded as a record [Agent] and
    its methods as computations in a small state-and-exception monad.  An
    exception leaves the mutations done so far in place, as in Python.

    Numbers: the arithmetic of the tables is abstracted by the interface
    [Arith]; every generic statement holds for any implementation of it, and
    the concrete runs use IEEE binary32 from [SpecFloat], the [np.float32]
    dtype of the tables as [__init__] builds them ([save] and [load] rebuild
    them as float64 arrays of the same values).  The rewards, [gamma] and
    [n_0] are Python numbers; they are taken in the same arithmetic as the
    table entries.

    Arrays: a numpy array is a shape and a flat row-major buffer, so both
    [arr[d, p, a]] and [arr.take(indices)] (which reads the FLATTENED array
    when no axis is given) are embedded as numpy defines them. *)

From Stdlib Require Import ZArith Floats.SpecFloat.
From stdpp Require Import gmap list strings.

Local Open Scope Z_scope.

(** ** Exceptions and results *)

Inductive exn : Type :=
  | IndexError
  | KeyError
  | ValueError
  | TypeError
  | AttributeError
  | UnboundLocalError
  | OSError
  | UnpicklingError.

Inductive result (A : Type) : Type :=
  | Ok (a : A)
  | Raise (e : exn).
Arguments Ok {A} a.
Arguments Raise {A} e.

(** ** The arithmetic interface *)

Class Arith : Type := {
  num : Type;
  zero : num;
  one : num;
  add : num -> num -> num;
  sub : num -> num -> num;
  mul : num -> num -> num;
  div : num -> num -> num;
  ltb : num -> num -> bool;
  leb : num -> num -> bool;
  isnan : num -> bool
}.

(** ** Python sequences *)

(** [seq[i]] for a Python int [i]: negative indices count from the end. *)
Definition norm_index (len : nat) (i : Z) : option nat :=
  if (0 <=? i) && (i <? Z.of_nat len) then Some (Z.to_nat i)
  else if (- Z.of_nat len <=? i) && (i <? 0) then Some (Z.to_nat (i + Z.of_nat len))
  else None.

Definition list_getitem {A : Type} (l : list A) (i : Z) : result A :=
  match norm_index (length l) i with
  | Some k => match l !! k with Some x => Ok x | None => Raise IndexError end
  | None => Raise IndexError
  end.

(** [range(n)] *)
Definition range (n : nat) : list Z := Z.of_nat <$> seq 0 n.

(** [dict(pairs)]: a later pair overrides an earlier one with the same key. *)
Definition py_dict `{Countable K} {V : Type} (pairs : list (K * V)) : gmap K V :=
  foldl (fun m kv => <[kv.1 := kv.2]> m) ∅ pairs.

(** ** [collections.deque] with a [maxlen] *)

Record deque (A : Type) : Type := Deque { items : list A; maxlen : nat }.
Arguments Deque {A} items maxlen.
Arguments items {A} d.
Arguments maxlen {A} d.

Definition deque_new {A : Type} (cap : nat) : deque A := Deque [] cap.

Definition deque_len {A : Type} (q : deque A) : nat := length (items q).

(** [q.append(x)]: when the deque is full the leftmost item is discarded. *)
Definition deque_append {A : Type} (q : deque A) (x : A) : deque A :=
  let l := items q ++ [x] in
  Deque (if (maxlen q <? length l)%nat then drop 1 l else l) (maxlen q).

Definition deque_getitem {A : Type} (q : deque A) (i : Z) : result A :=
  list_getitem (items q) i.

(** [q.popleft()] *)
Definition deque_popleft {A : Type} (q : deque A) : result (A * deque A) :=
  match items q with
  | [] => Raise IndexError
  | x :: rest => Ok (x, Deque rest (maxlen q))
  end.

(** [a, b = q]: iterable unpacking into exactly two names. *)
Definition unpack2 {A : Type} (q : deque A) : result (A * A) :=
  match items q with
  | [a; b] => Ok (a, b)
  | _ => Raise ValueError
  end.

(** ** The pseudo-random generator

    One call of [take_action] draws at most once from [random.random()] and
    once from [random.choice]; the two draws are inputs of the model. *)
Record rng `{Arith} : Type := Rng { uniform : num; randbelow : nat }.
Arguments Rng {_} uniform randbelow.

(** [random.choice(range(n))] *)
Definition random_choice `{Arith} (g : rng) (n : nat) : result Z :=
  if (n =? 0)%nat then Raise IndexError
  else Ok (Z.of_nat (randbelow g mod n)).

(** ** The monad of methods

    A method is a function of the state it mutates ([self], or [self] and
    the file system) to the new state and a value or an exception.  The
    state at an exception holds the mutations done before it. *)

Definition M (S A : Type) : Type := S -> S * result A.

Definition ret {S A : Type} (a : A) : M S A := fun s => (s, Ok a).

Definition bind {S A B : Type} (m : M S A) (f : A -> M S B) : M S B :=
  fun s =>
    match m s with
    | (s', Ok a) => f a s'
    | (s', Raise e) => (s', Raise e)
    end.

Definition get {S : Type} : M S S := fun s => (s, Ok s).

Definition modify {S : Type} (f : S -> S) : M S unit := fun s => (f s, Ok tt).

Definition lift {S A : Type} (r : result A) : M S A := fun s => (s, r).

(** A method of [self] run where the state is [self] and something else. *)
Definition on_fst {S T A : Type} (m : M S A) : M (S * T) A :=
  fun st => let '(s', r) := m st.1 in ((s', st.2), r).

Notation "'let!' x ':=' m 'in' k" := (bind m (fun x => k))
  (at level 10, x name, m at level 100, k at level 200).
Notation "'let!' ' p ':=' m 'in' k" := (bind m (fun p => k))
  (at level 10, p pattern, m at level 100, k at level 200).

Section Agent.

Context `{Ar : Arith}.
Context {action : Type} `{Countable action}.

(** ** numpy arrays and nested lists *)

Record ndarray : Type := NdArray { shape : list nat; data : list num }.

Definition np_zeros (d1 d2 d3 : nat) : ndarray :=
  NdArray [d1; d2; d3] (replicate (d1 * d2 * d3) zero).

(** The flat offset of [arr[i, j, k]], each index checked against its axis. *)
Definition offset3 (a : ndarray) (i j k : Z) : result nat :=
  match shape a with
  | [d1; d2; d3] =>
      match norm_index d1 i, norm_index d2 j, norm_index d3 k with
      | Some i', Some j', Some k' => Ok ((i' * d2 + j') * d3 + k')%nat
      | _, _, _ => Raise IndexError
      end
  | _ => Raise IndexError
  end.

Definition ndarray_getitem (a : ndarray) (i j k : Z) : result num :=
  match offset3 a i j k with
  | Ok o => match data a !! o with Some x => Ok x | None => Raise IndexError end
  | Raise e => Raise e
  end.

Definition ndarray_setitem (a : ndarray) (i j k : Z) (x : num) : result ndarray :=
  match offset3 a i j k with
  | Ok o =>
      if (o <? length (data a))%nat then Ok (NdArray (shape a) (<[o := x]> (data a)))
      else Raise IndexError
  | Raise e => Raise e
  end.

(** [arr.take(indices)] with [axis=None], [mode='raise']: every index
    addresses the flattened array. *)
Fixpoint ndarray_take (a : ndarray) (indices : list Z) : result (list num) :=
  match indices with
  | [] => Ok []
  | i :: rest =>
      match list_getitem (data a) i with
      | Ok x =>
          match ndarray_take a rest with
          | Ok xs => Ok (x :: xs)
          | Raise e => Raise e
          end
      | Raise e => Raise e
      end
  end.

(** [arr.sum()] of a one-dimensional array *)
Definition np_sum (xs : list num) : num :=
  match xs with
  | [] => zero
  | x :: rest => foldl add x rest
  end.

(** [np.argmax] of a one-dimensional float array: the first maximum, a NaN
    counting as maximal. *)
Fixpoint argmax_from (mp : num) (mi i : nat) (xs : list num) : nat :=
  match xs with
  | [] => mi
  | x :: rest =>
      if negb (leb x mp)
      then (if isnan x then i else argmax_from x i (S i) rest)
      else argmax_from mp mi (S i) rest
  end.

Definition np_argmax (xs : list num) : result Z :=
  match xs with
  | [] => Raise ValueError
  | x :: rest => Ok (Z.of_nat (if isnan x then 0%nat else argmax_from x 0 1 rest))
  end.

(** [chunks k c l]: the first [c] consecutive blocks of [k] items of [l]. *)
Fixpoint chunks {A : Type} (k c : nat) (l : list A) : list (list A) :=
  match c with
  | O => []
  | S c' => take k l :: chunks k c' (drop k l)
  end.

(** [arr.tolist()] of a three-dimensional array *)
Definition tolist (a : ndarray) : result (list (list (list num))) :=
  match shape a with
  | [d1; d2; d3] => Ok (chunks d3 d2 <$> chunks (d2 * d3) d1 (data a))
  | _ => Raise ValueError
  end.

(** [np.asarray] of a list of lists of lists of numbers.  From Python
    floats numpy builds a float64 array of the same values; the embedding
    keeps the entries as they are, so what is stated of an agent after [save]
    or [load] is stated of the values of its tables, not of the rounding of
    later updates. *)
Definition asarray (l : list (list (list num))) : result ndarray :=
  let d1 := length l in
  let d2 := match l with r :: _ => length r | [] => O end in
  let d3 := match l with (c :: _) :: _ => length c | _ => O end in
  if (d1 =? 0)%nat then Ok (NdArray [O] [])
  else if negb (forallb (fun r => (length r =? d2)%nat) l) then Raise ValueError
  else if (d2 =? 0)%nat then Ok (NdArray [d1; O] [])
  else if negb (forallb (forallb (fun c => (length c =? d3)%nat)) l) then Raise ValueError
  else Ok (NdArray [d1; d2; d3] (concat (concat l))).

(** A table attribute holds an array, or between [tolist] and [np.asarray]
    a plain nested list. *)
Inductive table : Type :=
  | Array (a : ndarray)
  | Nested (l : list (list (list num))).

Definition table_getitem (t : table) (i j k : Z) : result num :=
  match t with
  | Array a => ndarray_getitem a i j k
  | Nested _ => Raise TypeError
  end.

Definition table_setitem (t : table) (i j k : Z) (x : num) : result table :=
  match t with
  | Array a =>
      match ndarray_setitem a i j k x with
      | Ok a' => Ok (Array a')
      | Raise e => Raise e
      end
  | Nested _ => Raise TypeError
  end.

Definition table_take (t : table) (indices : list Z) : result (list num) :=
  match t with
  | Array a => ndarray_take a indices
  | Nested _ => Raise AttributeError
  end.

Definition table_tolist (t : table) : result table :=
  match t with
  | Array a =>
      match tolist a with
      | Ok l => Ok (Nested l)
      | Raise e => Raise e
      end
  | Nested _ => Raise AttributeError
  end.

Definition table_asarray (t : table) : result table :=
  match t with
  | Array a => Ok (Array a)
  | Nested l =>
      match asarray l with
      | Ok a => Ok (Array a)
      | Raise e => Raise e
      end
  end.

(** ** The agent object *)

Record Agent : Type := MkAgent {
  _possible_actions : list action;
  _n_actions : nat;
  _gamma : num;
  _n_0 : num;
  _base_name : string;
  _action2id : gmap action Z;
  _id2action : gmap Z action;
  _state_action_values : table;
  _state_action_visits : table;
  _past_actions : deque Z;
  _past_states : deque (Z * Z);
  _past_returns : deque num
}.

Definition set_values (t : table) (s : Agent) : Agent :=
  MkAgent (_possible_actions s) (_n_actions s) (_gamma s) (_n_0 s) (_base_name s)
    (_action2id s) (_id2action s) t (_state_action_visits s)
    (_past_actions s) (_past_states s) (_past_returns s).

Definition set_visits (t : table) (s : Agent) : Agent :=
  MkAgent (_possible_actions s) (_n_actions s) (_gamma s) (_n_0 s) (_base_name s)
    (_action2id s) (_id2action s) (_state_action_values s) t
    (_past_actions s) (_past_states s) (_past_returns s).

Definition set_past_actions (q : deque Z) (s : Agent) : Agent :=
  MkAgent (_possible_actions s) (_n_actions s) (_gamma s) (_n_0 s) (_base_name s)
    (_action2id s) (_id2action s) (_state_action_values s) (_state_action_visits s)
    q (_past_states s) (_past_returns s).

Definition set_past_states (q : deque (Z * Z)) (s : Agent) : Agent :=
  MkAgent (_possible_actions s) (_n_actions s) (_gamma s) (_n_0 s) (_base_name s)
    (_action2id s) (_id2action s) (_state_action_values s) (_state_action_visits s)
    (_past_actions s) q (_past_returns s).

Definition set_past_returns (q : deque num) (s : Agent) : Agent :=
  MkAgent (_possible_actions s) (_n_actions s) (_gamma s) (_n_0 s) (_base_name s)
    (_action2id s) (_id2action s) (_state_action_values s) (_state_action_visits s)
    (_past_actions s) (_past_states s) q.

(** ** [__init__] *)

Definition init (possible_actions : list action) (n_0 gamma : num)
    (base_name : string) : Agent :=
  let n_actions := length possible_actions in
  {| _possible_actions := possible_actions;
     _n_actions := n_actions;
     _gamma := gamma;
     _n_0 := n_0;
     _base_name := base_name;
     _action2id := py_dict (zip possible_actions (range n_actions));
     _id2action := py_dict (zip (range n_actions) possible_actions);
     _state_action_values := Array (np_zeros 11 22 n_actions);
     _state_action_visits := Array (np_zeros 11 22 n_actions);
     _past_actions := deque_new 2;
     _past_states := deque_new 2;
     _past_returns := deque_new 2 |}.

(** ** [take_action] *)

(** Lines 33-35: the exploration probability. *)
Definition take_action_epsilon (state : Z * Z) : M Agent num :=
  let! self := get in
  let n_0 := _n_0 self in
  let! visits := lift (table_take (_state_action_visits self) [state.1; state.2]) in
  ret (div n_0 (add n_0 (np_sum visits))).

Definition take_action (g : rng) (state : Z * Z) (explore : bool) : M Agent action :=
  let! epsilon := take_action_epsilon state in
  let! self := get in
  let! action_id :=
    (if explore && ltb (uniform g) epsilon
     then lift (random_choice g (_n_actions self))
     else
       let! action_values :=
         lift (table_take (_state_action_values self) [state.1; state.2]) in
       lift (np_argmax action_values)) in
  lift (list_getitem (_possible_actions self) action_id).

(** ** [_memorize] *)

Definition _memorize (state : Z * Z) (a : action) : M Agent unit :=
  let! self := get in
  let! action_id :=
    lift (match _action2id self !! a with
          | Some i => Ok i
          | None => Raise KeyError
          end) in
  let! _ := modify (fun s => set_past_states (deque_append (_past_states s) state) s) in
  modify (fun s => set_past_actions (deque_append (_past_actions s) action_id) s).

(** ** [_update] *)

(** [self._state_action_visits[i, j, k] += 1] *)
Definition visits_incr (i j k : Z) : M Agent unit :=
  let! self := get in
  let! old := lift (table_getitem (_state_action_visits self) i j k) in
  let! t := lift (table_setitem (_state_action_visits self) i j k (add old one)) in
  modify (set_visits t).

(** [self._state_action_values[i, j, k] += rhs]: the old value is read
    first, then the right-hand side is evaluated, then the sum is stored. *)
Definition values_iadd (i j k : Z) (rhs : M Agent num) : M Agent unit :=
  let! self := get in
  let! old := lift (table_getitem (_state_action_values self) i j k) in
  let! x := rhs in
  let! self' := get in
  let! t := lift (table_setitem (_state_action_values self') i j k (add old x)) in
  modify (set_values t).

Definition q_at (i j k : Z) : M Agent num :=
  let! self := get in lift (table_getitem (_state_action_values self) i j k).

Definition n_at (i j k : Z) : M Agent num :=
  let! self := get in lift (table_getitem (_state_action_visits self) i j k).

Definition _update (terminate : bool) : M Agent unit :=
  let! self := get in
  let gamma := _gamma self in
  let past_states := _past_states self in
  let past_actions := _past_actions self in
  let! '(older, (d_H_1, p_H_1), a_1) :=
    (if terminate && (deque_len past_states =? 1)%nat
     then
       let! s1 := lift (deque_getitem past_states 0) in
       let! a_1 := lift (deque_getitem past_actions 0) in
       ret (None, s1, a_1)
     else
       let! s0 := lift (deque_getitem past_states 0) in
       let! s1 := lift (deque_getitem past_states 1) in
       let! '(a, a_1) := lift (unpack2 past_actions) in
       ret (Some (s0, a), s1, a_1)) in
  let! '(r, rest) := lift (deque_popleft (_past_returns self)) in
  let! _ := modify (set_past_returns rest) in
  if negb terminate
  then
    match older with
    | Some ((d_H, p_H), a) =>
        let! _ := visits_incr d_H p_H a in
        values_iadd d_H p_H a
          (let! q1 := q_at d_H_1 p_H_1 a_1 in
           let! q0 := q_at d_H p_H a in
           let! n := n_at d_H p_H a in
           ret (div (sub (add r (mul gamma q1)) q0) n))
    | None => lift (Raise UnboundLocalError)
    end
  else
    let! _ := visits_incr d_H_1 p_H_1 a_1 in
    values_iadd d_H_1 p_H_1 a_1
      (let! q1 := q_at d_H_1 p_H_1 a_1 in
       let! n := n_at d_H_1 p_H_1 a_1 in
       ret (div (sub r q1) n)).

(** ** [_clear_cache] *)

Definition _clear_cache : M Agent unit :=
  let! _ := modify (set_past_actions (deque_new 2)) in
  let! _ := modify (set_past_states (deque_new 2)) in
  modify (set_past_returns (deque_new 2)).

(** ** [observe_and_act] *)

Definition observe_and_act (g : rng) (state : Z * Z) (reward : option num)
    (terminate : bool) : M Agent (option action) :=
  let! act :=
    (if negb terminate
     then
       let! a := take_action g state true in
       let! _ := _memorize state a in
       ret (Some a)
     else ret None) in
  let! _ :=
    match reward with
    | Some r =>
        let! _ := modify (fun s => set_past_returns (deque_append (_past_returns s) r) s) in
        _update terminate
    | None => ret tt
    end in
  let! _ := (if terminate then _clear_cache else ret tt) in
  ret act.


(** ** Persistence: [save], [_save_plot], [load] *)

(** What a file holds: a pickled agent object, or a figure. *)
Inductive file : Type :=
  | Pickle (obj : Agent)
  | Image.

(** [os.path.join(a, b)] on POSIX paths *)
Definition os_path_join (a b : string) : string :=
  if String.prefix "/" b then b
  else if (String.eqb a "") || String.eqb (String.substring (String.length a - 1) 1 a) "/"
       then String.append a b
       else String.append a (String.append "/" b).

(** Modelled from the spec: [_save_local] is inherited from the base class
    [RLearningAgent] of [src/agent.py], which is not among the sources.  The
    spec has one blob per call at a path derived from the output directory,
    the optional iteration tag and the extension; the blob with extension
    [pkl] is the serialized agent object as it is at the call, the other one
    the companion figure.  A path is kept as these three components. *)
Definition _save_local (output_dir : string) (iteration : option Z)
    (extension : string) : M (Agent * gmap (string * option Z * string) file) unit :=
  modify (fun '(self, fs) =>
    (self, <[(output_dir, iteration, extension) :=
               if String.eqb extension "pkl" then Pickle self else Image]> fs)).

(** [t[1:, 1:, 0]]: needs a three-dimensional array with a first action. *)
Definition plot_slice (t : table) : result unit :=
  match t with
  | Array a =>
      match shape a with
      | [_; _; d3] => if (0 <? d3)%nat then Ok tt else Raise IndexError
      | _ => Raise IndexError
      end
  | Nested _ => Raise TypeError
  end.

(** The surfaces drawn are for display only; what is kept of [_save_plot]
    is the two reads of the tables and the file it writes. *)
Definition _save_plot (output_dir : string) (iteration : option Z)
    : M (Agent * gmap (string * option Z * string) file) unit :=
  let! st := get in
  let! _ := lift (plot_slice (_state_action_values st.1)) in
  let! _ := lift (plot_slice (_state_action_visits st.1)) in
  _save_local output_dir iteration "png".

Definition save (output_dir : string) (iteration : option Z)
    : M (Agent * gmap (string * option Z * string) file) unit :=
  let! st := get in
  let output_dir := os_path_join output_dir (_base_name st.1) in
  let! _ := on_fst _clear_cache in
  let! st := get in
  let! q := lift (table_tolist (_state_action_values st.1)) in
  let! _ := on_fst (modify (set_values q)) in
  let! st := get in
  let! n := lift (table_tolist (_state_action_visits st.1)) in
  let! _ := on_fst (modify (set_visits n)) in
  let! _ := _save_local output_dir iteration "pkl" in
  let! st := get in
  let! q := lift (table_asarray (_state_action_values st.1)) in
  let! _ := on_fst (modify (set_values q)) in
  let! st := get in
  let! n := lift (table_asarray (_state_action_visits st.1)) in
  let! _ := on_fst (modify (set_visits n)) in
  _save_plot output_dir iteration.

(** [load(fname)]: [open] fails on a missing file, [pickle.load] on a file
    that is no pickle. *)
Definition load (fname : string * option Z * string)
    (fs : gmap (string * option Z * string) file) : result Agent :=
  match fs !! fname with
  | None => Raise OSError
  | Some Image => Raise UnpicklingError
  | Some (Pickle self) =>
      match table_asarray (_state_action_values self) with
      | Raise e => Raise e
      | Ok q =>
          let self := set_values q self in
          match table_asarray (_state_action_visits self) with
          | Raise e => Raise e
          | Ok n => Ok (set_visits n self)
          end
      end
  end.

End Agent.

(** ** IEEE binary32, the dtype of the tables *)

Module F32.

Definition prec : Z := 24.
Definition emax : Z := 128.

Definition of_Z (z : Z) : spec_float := binary_normalize prec emax z 0 false.

Definition is_nan (x : spec_float) : bool :=
  match x with S754_nan => true | _ => false end.

#[export] Instance arith : Arith := {|
  num := spec_float;
  zero := of_Z 0;
  one := of_Z 1;
  add := SFadd prec emax;
  sub := SFsub prec emax;
  mul := SFmul prec emax;
  div := SFdiv prec emax;
  ltb := SFltb;
  leb := SFleb;
  isnan := is_nan
|}.

End F32.

(** ** Vocabulary of the statements *)

(** A lookup state of the data model: dealer card in [0,10], player sum in
    [0,21]. *)
Definition state_ok (s : Z * Z) : Prop := 0 <= s.1 <= 10 /\ 0 <= s.2 <= 21.

(** The row-major offset of cell [(s, a)] in a table of shape [11, 22, n]. *)
Definition flat (n : nat) (s : Z * Z) (a : Z) : nat :=
  ((Z.to_nat s.1 * 22 + Z.to_nat s.2) * n + Z.to_nat a)%nat.



Section Vocabulary.

Context `{Ar : Arith} {action : Type} `{Countable action}.

(** The buffer of a table, whatever its form. *)
Definition cells (t : table) : list num :=
  match t with
  | Array a => data a
  | Nested l => concat (concat l)
  end.

(** The shape and the buffer of a table in array form. *)
Definition array_parts (t : table) : option (list nat * list num) :=
  match t with
  | Array a => Some (shape a, data a)
  | Nested _ => None
  end.

(** A table of the data model: an array of shape [11, 22, n]. *)
Definition table_ok (n : nat) (t : table) : Prop :=
  exists xs, t = Array (NdArray [11; 22; n]%nat xs) /\ length xs = (11 * 22 * n)%nat.

(** An agent as [__init__] and the methods keep it. *)
Record wf (st : Agent (action := action)) : Prop := {
  wf_n_actions : _n_actions st = length (_possible_actions st);
  wf_action2id :
    _action2id st = py_dict (zip (_possible_actions st) (range (_n_actions st)));
  wf_values : table_ok (_n_actions st) (_state_action_values st);
  wf_visits : table_ok (_n_actions st) (_state_action_visits st);
  wf_maxlen :
    maxlen (_past_actions st) = 2%nat /\ maxlen (_past_states st) = 2%nat /\
    maxlen (_past_returns st) = 2%nat
}.

(** The three history buffers as [_clear_cache] leaves them. *)
Definition history_cleared (st : Agent (action := action)) : Prop :=
  _past_actions st = deque_new 2 /\ _past_states st = deque_new 2 /\
  _past_returns st = deque_new 2.

(** What is not a table and not a history buffer. *)
Definition same_settings (st st' : Agent (action := action)) : Prop :=
  _possible_actions st' = _possible_actions st /\ _n_actions st' = _n_actions st /\
  _gamma st' = _gamma st /\ _n_0 st' = _n_0 st /\ _base_name st' = _base_name st /\
  _action2id st' = _action2id st /\ _id2action st' = _id2action st.

(** What one increment of [N] followed by one in-place addition to [Q] at
    the same index does, completed or not. *)
Definition step_effect (s0 : Agent (action := action)) (res : Agent (action := action) * result unit) : Prop :=
  match res.2 with
  | Ok _ =>
      exists (i j k : Z) (x y : num),
        table_setitem (_state_action_visits s0) i j k x = Ok (_state_action_visits res.1) /\
        table_setitem (_state_action_values s0) i j k y = Ok (_state_action_values res.1) /\
        res.1 = set_values (_state_action_values res.1)
                  (set_visits (_state_action_visits res.1) s0)
  | Raise _ =>
      _state_action_values res.1 = _state_action_values s0 /\
      (res.1 = s0 \/
       exists (i j k : Z) (x : num),
         table_setitem (_state_action_visits s0) i j k x = Ok (_state_action_visits res.1) /\
         res.1 = set_visits (_state_action_visits res.1) s0)
  end.

(** [t'] is [t] with the one cell [[i, j, k]] set to [x]. *)
Definition cell_written (t t' : table) (i j k : Z) (x : num) : Prop :=
  exists (a : ndarray) (o : nat),
    t = Array a /\ offset3 a i j k = Ok o /\ (o < length (data a))%nat /\
    t' = Array (NdArray (shape a) (<[o := x]> (data a))).

(** The history holds the pairs [_update] needs, within the bounds of a
    table of shape [11, 22, n]. *)
Definition history_ready (terminate : bool) (n : nat)
    (st : Agent (action := action)) : Prop :=
  (terminate = true /\
   exists s a, items (_past_states st) = [s] /\ items (_past_actions st) = [a] /\
     state_ok s /\ 0 <= a < Z.of_nat n) \/
  (exists s a s' a',
     items (_past_states st) = [s; s'] /\ items (_past_actions st) = [a; a'] /\
     state_ok s /\ state_ok s' /\ 0 <= a < Z.of_nat n /\ 0 <= a' < Z.of_nat n).




(** [t[d, p]]: the row of one lookup state, one entry per action id. *)
Definition table_row (t : table) (s : Z * Z) : result (list num) :=
  match t with
  | Array a =>
      match shape a with
      | [d1; d2; d3] =>
          match norm_index d1 s.1, norm_index d2 s.2 with
          | Some i, Some j => Ok (take d3 (drop ((i * d2 + j) * d3) (data a)))
          | _, _ => Raise IndexError
          end
      | _ => Raise IndexError
      end
  | Nested _ => Raise TypeError
  end.

(** The greedy choice in the words of the spec: the action maximizing
    [Q[state, a]] over the action ids, the lowest id on ties. *)
Definition spec_greedy_action (st : Agent (action := action)) (s : Z * Z)
    : result action :=
  match table_row (_state_action_values st) s with
  | Ok row =>
      match np_argmax row with
      | Ok id => list_getitem (_possible_actions st) id
      | Raise e => Raise e
      end
  | Raise e => Raise e
  end.

(** The exploration probability in the words of the spec:
    [n_0 / (n_0 + sum_a N[state, a])]. *)
Definition spec_epsilon (st : Agent (action := action)) (s : Z * Z) : result num :=
  match table_row (_state_action_visits st) s with
  | Ok row => Ok (div (_n_0 st) (add (_n_0 st) (np_sum row)))
  | Raise e => Raise e
  end.

End Vocabulary.

(** ** A two-action agent in binary32 *)

Module Easy21.

Import F32.

Definition hit : string := "hit".
Definition stick : string := "stick".

Definition half : spec_float := binary_normalize prec emax 1 (-1) false.

(** [TDLearningAgent(["hit", "stick"])] with the default [n_0=100],
    [gamma=1]. *)
Definition fresh : Agent := init [hit; stick] (of_Z 100) (of_Z 1) "td_learning".

(** Draws that explore and pick index 1: [random.random()] gives 0.5. *)
Definition draw_stick : rng := Rng half 1.

(** Draws that explore and pick index 0. *)
Definition draw_hit : rng := Rng half 0.

(** After [observe_and_act((1, 10))]: one recorded pair, [((1, 10), stick)]. *)
Definition one_pair : Agent :=
  (observe_and_act draw_stick (1, 10) None false fresh).1.

(** After a further [observe_and_act((2, 11))]: two recorded pairs. *)
Definition two_pairs : Agent :=
  (observe_and_act draw_hit (2, 11) None false one_pair).1.

(** [two_pairs] at the point where [observe_and_act] has queued the reward 1
    and calls [_update]. *)
Definition two_pairs_pending : Agent :=
  set_past_returns (deque_append (_past_returns two_pairs) (of_Z 1)) two_pairs.

(** [one_pair] at the point where a terminal call has queued the reward -1. *)
Definition one_pair_pending : Agent :=
  set_past_returns (deque_append (_past_returns one_pair) (of_Z (-1))) one_pair.

(** The fresh agent at the point where [observe_and_act(s, reward=1,
    terminate=True)] has queued the reward and calls [_update]. *)
Definition fresh_pending : Agent :=
  set_past_returns (deque_append (_past_returns fresh) (of_Z 1)) fresh.

(** After the episode [observe_and_act((1, 10))],
    [observe_and_act((1, 10), reward=1, terminate=True)]: the pair
    [((1, 10), stick)] has value 1 and one visit. *)
Definition trained : Agent :=
  (observe_and_act draw_stick (1, 10) (Some (of_Z 1)) true one_pair).1.





End Easy21.

(** ** Sequences of calls *)

Section Calls.

Context `{Ar : Arith} {action : Type} `{Countable action}.

(** One call of [observe_and_act] by a training loop, with its random draws. *)
Record call : Type := Call {
  call_rng : rng;
  call_state : Z * Z;
  call_reward : option num;
  call_terminate : bool
}.

(** The agent after a sequence of calls; a call that raises leaves the agent
    as it is at the exception, and the loop goes on. *)
Definition after_calls (cs : list call) (st : Agent (action := action))
    : Agent (action := action) :=
  foldl (fun st c =>
           (observe_and_act (call_rng c) (call_state c) (call_reward c)
              (call_terminate c) st).1) st cs.

(** The recorded states and action ids go in pairs, at most two of them,
    every id is the id of an action, and at most two rewards are pending. *)
Definition history_inv (st : Agent (action := action)) : Prop :=
  length (items (_past_states st)) = length (items (_past_actions st)) /\
  (length (items (_past_states st)) <= 2)%nat /\
  (length (items (_past_returns st)) <= 2)%nat /\
  Forall (fun a => 0 <= a < Z.of_nat (_n_actions st)) (items (_past_actions st)).

(** An index numpy rejects on an axis of length [len]. *)
Definition out_of_range (len : nat) (i : Z) : Prop :=
  Z.of_nat len <= i \/ i < - Z.of_nat len.

(** The cells of a table at the flat offsets 0 to 21. *)
Definition low_cells (t : table) : list num := take 22 (cells t).

End Calls.

(** A state of the game: within the table, the dealer's card at least 1. *)
Definition dealt (s : Z * Z) : Prop := state_ok s /\ 1 <= s.1.

(** ** More agents of the two-action game in binary32 *)

Module Episodes.

Import F32 Easy21.

(** The calls of the episode that leads to [Easy21.trained]. *)
Definition episode : list call :=
  [Call draw_stick (1, 10) None false; Call draw_stick (1, 10) (Some (of_Z 1)) true].

(** After [observe_and_act((11, 0))] on the fresh agent: the dealer card 11
    is beyond the table. *)
Definition beyond : Agent := (observe_and_act draw_hit (11, 0) None false fresh).1.

(** After [observe_and_act((11, 0))], [observe_and_act((1, 1))], with the
    reward 1 queued: the older pair is beyond the table. *)
Definition older_beyond_pending : Agent :=
  let st := (observe_and_act draw_hit (1, 1) None false beyond).1 in
  set_past_returns (deque_append (_past_returns st) (of_Z 1)) st.

(** After [observe_and_act((1, 10))], [observe_and_act((11, 0))], with the
    reward 1 queued: the newer pair is beyond the table. *)
Definition newer_beyond_pending : Agent :=
  let st := (observe_and_act draw_hit (11, 0) None false one_pair).1 in
  set_past_returns (deque_append (_past_returns st) (of_Z 1)) st.

(** After [observe_and_act((1, 10), reward=1)] on the fresh agent: the call
    raised, one pair is recorded and the reward is still queued. *)
Definition stalled : Agent :=
  (observe_and_act draw_stick (1, 10) (Some (of_Z 1)) false fresh).1.

(** A whole number between 0 and 2^24 = 16777216, as a binary32 cell holds
    it. *)
Definition whole_count (x : spec_float) : Prop :=
  exists k : Z, 0 <= k <= 16777216 /\ x = of_Z k.

End Episodes.

(** * Properties of the methods, for any arithmetic *)

Section AgentProperties.

Context `{Ar : Arith} {action : Type} `{Countable action}.

Abbreviation agent := (Agent (action := action)).
Implicit Types (st : agent) (s : Z * Z) (a : Z).

(** ** Indexing *)

Lemma norm_index_in (len : nat) (i : Z) :
  0 <= i < Z.of_nat len -> norm_index len i = Some (Z.to_nat i).
Proof.
  intros Hi. unfold norm_index.
  destruct (Z.leb_spec 0 i); [|lia].
  destruct (Z.ltb_spec i (Z.of_nat len)); [reflexivity|lia].
Qed.

Lemma norm_index_lt (len : nat) (i : Z) (k : nat) :
  norm_index len i = Some k -> (k < len)%nat.
Proof.
  unfold norm_index.
  destruct (Z.leb_spec 0 i), (Z.ltb_spec i (Z.of_nat len)); simpl;
    try (intros [= <-]; lia);
    destruct (Z.leb_spec (- Z.of_nat len) i), (Z.ltb_spec i 0); simpl;
    try discriminate; intros [= <-]; lia.
Qed.

Lemma list_getitem_0 {A : Type} (x : A) (l : list A) :
  list_getitem (x :: l) 0 = Ok x.
Proof.
  unfold list_getitem. rewrite norm_index_in by (cbn [length]; lia). reflexivity.
Qed.

Lemma list_getitem_1 {A : Type} (x y : A) (l : list A) :
  list_getitem (x :: y :: l) 1 = Ok y.
Proof.
  unfold list_getitem. rewrite norm_index_in by (cbn [length]; lia). reflexivity.
Qed.

Lemma list_getitem_short {A : Type} (l : list A) (i : Z) :
  (length l <= Z.to_nat i)%nat -> 0 <= i -> list_getitem l i = Raise IndexError.
Proof.
  intros Hlen Hi. unfold list_getitem, norm_index.
  destruct (Z.leb_spec 0 i); [|lia].
  destruct (Z.ltb_spec i (Z.of_nat (length l))); [lia|]. cbn.
  destruct (Z.ltb_spec i 0); [lia|]. by rewrite andb_false_r.
Qed.

Lemma flat_lt (n : nat) s a :
  state_ok s -> 0 <= a < Z.of_nat n -> (flat n s a < 11 * 22 * n)%nat.
Proof.
  intros [[? ?] [? ?]] [? ?]. unfold flat.
  assert (Z.to_nat s.1 <= 10)%nat by lia.
  assert (Z.to_nat s.2 <= 21)%nat by lia.
  assert (Z.to_nat a < n)%nat by lia.
  nia.
Qed.

Lemma offset3_ok (n : nat) (xs : list num) s a :
  state_ok s -> 0 <= a < Z.of_nat n ->
  offset3 (NdArray [11; 22; n]%nat xs) s.1 s.2 a = Ok (flat n s a).
Proof.
  intros [[? ?] [? ?]] [? ?]. unfold offset3. cbn [shape].
  rewrite !norm_index_in by lia. reflexivity.
Qed.

Lemma array_parts_eq (t : table) (sh : list nat) (xs : list num) :
  array_parts t = Some (sh, xs) -> t = Array (NdArray sh xs).
Proof. destruct t as [[sh' xs']|l]; cbn; [|done]. by intros [= -> ->]. Qed.

Lemma table_getitem_ok (n : nat) (xs : list num) s a :
  state_ok s -> 0 <= a < Z.of_nat n -> length xs = (11 * 22 * n)%nat ->
  exists x, xs !! flat n s a = Some x /\
    table_getitem (Array (NdArray [11; 22; n]%nat xs)) s.1 s.2 a = Ok x.
Proof.
  intros Hs Ha Hlen.
  destruct (lookup_lt_is_Some_2 xs (flat n s a)) as [x Hx].
  { rewrite Hlen. by apply flat_lt. }
  exists x. split; [done|].
  unfold table_getitem, ndarray_getitem. rewrite offset3_ok by done.
  cbn [data]. by rewrite Hx.
Qed.

(** ** Reads and writes of one cell *)

#[local] Arguments table_getitem : simpl never.
#[local] Arguments table_setitem : simpl never.
#[local] Arguments table_take : simpl never.
#[local] Arguments np_argmax : simpl never.
#[local] Arguments list_getitem : simpl never.

Lemma getitem_array (a : ndarray) (i j k : Z) (o : nat) (x : num) :
  offset3 a i j k = Ok o -> data a !! o = Some x ->
  table_getitem (Array a) i j k = Ok x.
Proof.
  intros Ho Hx. unfold table_getitem, ndarray_getitem. by rewrite Ho, Hx.
Qed.

Lemma setitem_array (a : ndarray) (i j k : Z) (o : nat) (x y : num) :
  offset3 a i j k = Ok o -> data a !! o = Some x ->
  table_setitem (Array a) i j k y = Ok (Array (NdArray (shape a) (<[o := y]> (data a)))).
Proof.
  intros Ho Hx. unfold table_setitem, ndarray_setitem. rewrite Ho.
  apply lookup_lt_Some in Hx.
  destruct (Nat.ltb_spec o (length (data a))); [done|lia].
Qed.

(** ** Running the primitives of [_update] *)

Ltac run := unfold bind, get, lift, ret, modify; cbn.

Lemma update_nonterminal_run st s a s' a' (r : num) (rest : list num)
    (qa na : ndarray) (o on o1 : nat) (n0 q0 q1 : num) :
  _state_action_values st = Array qa ->
  _state_action_visits st = Array na ->
  items (_past_states st) = [s; s'] ->
  items (_past_actions st) = [a; a'] ->
  items (_past_returns st) = r :: rest ->
  offset3 na s.1 s.2 a = Ok on -> data na !! on = Some n0 ->
  offset3 qa s.1 s.2 a = Ok o -> data qa !! o = Some q0 ->
  offset3 qa s'.1 s'.2 a' = Ok o1 -> data qa !! o1 = Some q1 ->
  _update false st =
    (set_values
       (Array (NdArray (shape qa)
          (<[o := add q0 (div (sub (add r (mul (_gamma st) q1)) q0) (add n0 one))]>
             (data qa))))
       (set_visits (Array (NdArray (shape na) (<[on := add n0 one]> (data na))))
          (set_past_returns (Deque rest (maxlen (_past_returns st))) st)),
     Ok tt).
Proof.
  intros HQ HN Hs Ha Hr Hon Hn0 Ho Hq0 Ho1 Hq1.
  unfold _update. run.
  unfold deque_len, deque_getitem, unpack2, deque_popleft. rewrite Hs, Ha, Hr. cbn.
  rewrite list_getitem_0, list_getitem_1.
  destruct s as [d p], s' as [d' p']. cbn in *.
  unfold visits_incr, values_iadd, q_at, n_at. run.
  rewrite HN.
  rewrite (getitem_array na d p a on n0) by done.
  rewrite (setitem_array na d p a on n0) by done. cbn.
  rewrite HQ.
  rewrite (getitem_array qa d p a o q0) by done.
  rewrite (getitem_array qa d' p' a' o1 q1) by done. cbn.
  erewrite (getitem_array _ d p a on (add n0 one)); [ |done|]; cycle 1.
  { cbn. apply list_lookup_insert_eq. by eapply lookup_lt_Some. }
  cbn. rewrite HQ. by rewrite (setitem_array qa d p a o q0) by done.
Qed.

Lemma terminal_step_run st s a (r : num) (qa na : ndarray) (o on : nat) (n0 q0 : num) :
  _state_action_values st = Array qa ->
  _state_action_visits st = Array na ->
  offset3 na s.1 s.2 a = Ok on -> data na !! on = Some n0 ->
  offset3 qa s.1 s.2 a = Ok o -> data qa !! o = Some q0 ->
  (let! _ := visits_incr s.1 s.2 a in
   values_iadd s.1 s.2 a
     (let! q1 := q_at s.1 s.2 a in
      let! n := n_at s.1 s.2 a in
      ret (div (sub r q1) n))) st =
    (set_values
       (Array (NdArray (shape qa) (<[o := add q0 (div (sub r q0) (add n0 one))]> (data qa))))
       (set_visits (Array (NdArray (shape na) (<[on := add n0 one]> (data na)))) st),
     Ok tt).
Proof.
  intros HQ HN Hon Hn0 Ho Hq0. destruct s as [d p]. cbn in *.
  unfold visits_incr, values_iadd, q_at, n_at. run.
  rewrite HN.
  rewrite (getitem_array na d p a on n0) by done.
  rewrite (setitem_array na d p a on n0) by done. cbn.
  rewrite HQ.
  rewrite !(getitem_array qa d p a o q0) by done. cbn.
  erewrite (getitem_array _ d p a on (add n0 one)); [ |done|]; cycle 1.
  { cbn. apply list_lookup_insert_eq. by eapply lookup_lt_Some. }
  cbn. rewrite HQ. by rewrite (setitem_array qa d p a o q0) by done.
Qed.

Lemma update_terminal_one_run st s a (r : num) (rest : list num)
    (qa na : ndarray) (o on : nat) (n0 q0 : num) :
  _state_action_values st = Array qa ->
  _state_action_visits st = Array na ->
  items (_past_states st) = [s] ->
  items (_past_actions st) = [a] ->
  items (_past_returns st) = r :: rest ->
  offset3 na s.1 s.2 a = Ok on -> data na !! on = Some n0 ->
  offset3 qa s.1 s.2 a = Ok o -> data qa !! o = Some q0 ->
  _update true st =
    (set_values
       (Array (NdArray (shape qa) (<[o := add q0 (div (sub r q0) (add n0 one))]> (data qa))))
       (set_visits (Array (NdArray (shape na) (<[on := add n0 one]> (data na))))
          (set_past_returns (Deque rest (maxlen (_past_returns st))) st)),
     Ok tt).
Proof.
  intros HQ HN Hs Ha Hr Hon Hn0 Ho Hq0.
  unfold _update.
  unfold bind at 1. unfold get at 1. cbn beta iota.
  unfold bind at 1.
  unfold deque_len, deque_getitem, deque_popleft. rewrite Hs, Ha, Hr.
  cbn [length andb Nat.eqb]. unfold bind at 1 2. unfold lift at 1 2, ret at 1.
  rewrite !list_getitem_0. cbn beta iota.
  unfold bind at 1. unfold lift at 1. cbn beta iota.
  unfold bind at 1. unfold modify at 1. cbn beta iota. cbn [negb].
  destruct s as [d p].
  by apply (terminal_step_run _ (d, p) a r qa na o on n0 q0).
Qed.

Lemma update_terminal_two_run st s0 a0 s a (r : num) (rest : list num)
    (qa na : ndarray) (o on : nat) (n0 q0 : num) :
  _state_action_values st = Array qa ->
  _state_action_visits st = Array na ->
  items (_past_states st) = [s0; s] ->
  items (_past_actions st) = [a0; a] ->
  items (_past_returns st) = r :: rest ->
  offset3 na s.1 s.2 a = Ok on -> data na !! on = Some n0 ->
  offset3 qa s.1 s.2 a = Ok o -> data qa !! o = Some q0 ->
  _update true st =
    (set_values
       (Array (NdArray (shape qa) (<[o := add q0 (div (sub r q0) (add n0 one))]> (data qa))))
       (set_visits (Array (NdArray (shape na) (<[on := add n0 one]> (data na))))
          (set_past_returns (Deque rest (maxlen (_past_returns st))) st)),
     Ok tt).
Proof.
  intros HQ HN Hs Ha Hr Hon Hn0 Ho Hq0.
  unfold _update.
  unfold bind at 1. unfold get at 1. cbn beta iota.
  unfold bind at 1.
  unfold deque_len, deque_getitem, deque_popleft, unpack2. rewrite Hs, Ha, Hr.
  cbn [length andb Nat.eqb]. unfold bind at 1 2 3. unfold lift at 1 2 3, ret at 1.
  rewrite list_getitem_0, list_getitem_1. cbn beta iota.
  unfold bind at 1. unfold lift at 1. cbn beta iota.
  unfold bind at 1. unfold modify at 1. cbn beta iota. cbn [negb].
  destruct s as [d p], s0 as [d0 p0].
  by apply (terminal_step_run _ (d, p) a r qa na o on n0 q0).
Qed.

(** ** Every run of the primitives *)

Lemma visits_incr_cases st (i j k : Z) :
  (exists x t,
      table_setitem (_state_action_visits st) i j k x = Ok t /\
      visits_incr i j k st = (set_visits t st, Ok tt)) \/
  (exists e, visits_incr i j k st = (st, Raise e)).
Proof.
  unfold visits_incr. run.
  destruct (table_getitem (_state_action_visits st) i j k) as [x|e]; [|by eauto].
  destruct (table_setitem (_state_action_visits st) i j k (add x one)) as [t|e] eqn:Ht;
    [left|right]; eauto.
Qed.

Lemma values_iadd_cases st (i j k : Z) (rhs : M agent num) :
  (forall st0, (rhs st0).1 = st0) ->
  (exists y t,
      table_setitem (_state_action_values st) i j k y = Ok t /\
      values_iadd i j k rhs st = (set_values t st, Ok tt)) \/
  (exists e, values_iadd i j k rhs st = (st, Raise e)).
Proof.
  intros Hro. unfold values_iadd. run.
  destruct (table_getitem (_state_action_values st) i j k) as [x|e]; [|by eauto].
  specialize (Hro st). destruct (rhs st) as [s1 [y|e]]; cbn in Hro; subst s1; [|by eauto].
  destruct (table_setitem (_state_action_values st) i j k (add x y)) as [t|e] eqn:Ht;
    [left|right]; eauto.
Qed.

Lemma rhs_nonterminal_readonly (gamma r : num) (i j k i' j' k' : Z) st :
  ((let! q1 := q_at i' j' k' in
    let! q0 := q_at i j k in
    let! n := n_at i j k in
    ret (div (sub (add r (mul gamma q1)) q0) n)) st).1 = st.
Proof.
  unfold q_at, n_at. run.
  destruct (table_getitem (_state_action_values st) i' j' k'); [|done].
  destruct (table_getitem (_state_action_values st) i j k); [|done].
  by destruct (table_getitem (_state_action_visits st) i j k).
Qed.

Lemma rhs_terminal_readonly (r : num) (i j k : Z) st :
  ((let! q1 := q_at i j k in
    let! n := n_at i j k in
    ret (div (sub r q1) n)) st).1 = st.
Proof.
  unfold q_at, n_at. run.
  destruct (table_getitem (_state_action_values st) i j k); [|done].
  by destruct (table_getitem (_state_action_visits st) i j k).
Qed.

Lemma step_cases st (i j k : Z) (rhs : M agent num) :
  (forall st0, (rhs st0).1 = st0) ->
  step_effect st ((let! _ := visits_incr i j k in values_iadd i j k rhs) st).
Proof.
  intros Hro. unfold bind.
  destruct (visits_incr_cases st i j k) as [(x & t & Ht & ->)|[e ->]].
  - destruct (values_iadd_cases (set_visits t st) i j k rhs Hro)
      as [(y & t' & Ht' & ->)|[e ->]]; unfold step_effect; cbn.
    + exists i, j, k, x, y. by destruct st.
    + split; [done|]. right. exists i, j, k, x. by destruct st.
  - unfold step_effect; cbn. by eauto.
Qed.

(** Every run of [_update]: it raises before the pop and changes nothing,
    or it pops one reward and then does one step on the tables. *)
Lemma update_cases (terminate : bool) st :
  (exists e, _update terminate st = (st, Raise e)) \/
  (exists (r : num) (rest : list num),
      items (_past_returns st) = r :: rest /\
      step_effect (set_past_returns (Deque rest (maxlen (_past_returns st))) st)
        (_update terminate st)).
Proof.
  remember (_update terminate st) as res eqn:Hres.
  unfold _update in Hres. unfold bind at 1 in Hres. unfold get at 1 in Hres.
  cbn beta iota in Hres. unfold bind at 1 in Hres.
  match type of Hres with
  | context [match ?sel st with _ => _ end] => set (select := sel) in Hres
  end.
  assert (Hsel : (select st).1 = st).
  { subst select. run.
    destruct (terminate && (deque_len (_past_states st) =? 1)%nat).
    - destruct (deque_getitem (_past_states st) 0); [|done].
      by destruct (deque_getitem (_past_actions st) 0).
    - destruct (deque_getitem (_past_states st) 0); [|done].
      destruct (deque_getitem (_past_states st) 1); [|done].
      by destruct (unpack2 (_past_actions st)) as [[? ?]|]. }
  assert (Hold : terminate = false ->
            forall tgt, (select st).2 = Ok tgt -> exists c, tgt.1.1 = Some c).
  { intros -> tgt. subst select. run.
    destruct (deque_getitem (_past_states st) 0); [|done].
    destruct (deque_getitem (_past_states st) 1); [|done].
    destruct (unpack2 (_past_actions st)) as [[? ?]|]; [|done].
    cbn. intros [= <-]. by eexists. }
  destruct (select st) as [st1 [[[older [d1 p1]] a1]|e]]; cbn in Hsel; subst st1;
    [|left; by eauto].
  unfold bind at 1 in Hres. unfold lift at 1 in Hres. unfold deque_popleft in Hres.
  destruct (items (_past_returns st)) as [|r rest] eqn:Hr; [left; by eauto|].
  right. exists r, rest. split; [done|].
  cbn beta iota in Hres. unfold bind at 1 in Hres. unfold modify at 1 in Hres.
  cbn beta iota in Hres. subst res.
  destruct terminate; cbn [negb].
  - apply (step_cases _ d1 p1 a1). intros st0. apply rhs_terminal_readonly.
  - destruct (Hold eq_refl _ eq_refl) as [[[d p] a] Hc]. cbn in Hc. subst older.
    apply (step_cases _ d p a). intros st0. apply rhs_nonterminal_readonly.
Qed.

(** ** [take_action] and [_memorize] *)

Lemma take_action_epsilon_readonly s st : (take_action_epsilon s st).1 = st.
Proof.
  unfold take_action_epsilon. run.
  by destruct (table_take (_state_action_visits st) [s.1; s.2]).
Qed.

Lemma take_action_readonly (g : rng) s (explore : bool) st :
  (take_action g s explore st).1 = st.
Proof.
  unfold take_action. unfold bind at 1.
  pose proof (take_action_epsilon_readonly s st) as He.
  destruct (take_action_epsilon s st) as [st1 [eps|e]]; cbn in He; subst st1; [|done].
  run.
  destruct (explore && ltb (uniform g) eps).
  - destruct (random_choice g (_n_actions st)) as [i|e]; [|done]. cbn.
    by destruct (list_getitem (_possible_actions st) i).
  - destruct (table_take (_state_action_values st) [s.1; s.2]) as [vs|e]; [|done]. cbn.
    destruct (np_argmax vs) as [i|e]; [|done]. cbn.
    by destruct (list_getitem (_possible_actions st) i).
Qed.

Lemma take_pair_ok (n : nat) (xs : list num) s :
  state_ok s -> (1 <= n)%nat -> length xs = (11 * 22 * n)%nat ->
  exists x y, table_take (Array (NdArray [11; 22; n]%nat xs)) [s.1; s.2] = Ok [x; y].
Proof.
  intros [[? ?] [? ?]] Hn Hlen.
  destruct (lookup_lt_is_Some_2 xs (Z.to_nat s.1)) as [x Hx]; [lia|].
  destruct (lookup_lt_is_Some_2 xs (Z.to_nat s.2)) as [y Hy]; [lia|].
  exists x, y. unfold table_take. cbn [ndarray_take data]. unfold list_getitem.
  rewrite !norm_index_in by lia. by rewrite Hx, Hy.
Qed.

Lemma np_argmax_pair (x y : num) :
  exists i : nat, np_argmax [x; y] = Ok (Z.of_nat i) /\ (i < 2)%nat.
Proof.
  unfold np_argmax. cbn [argmax_from].
  destruct (isnan x); [exists 0%nat; split; [done|lia]|].
  destruct (negb (leb y x)); [|exists 0%nat; split; [done|lia]].
  destruct (isnan y); exists 1%nat; split; (done || lia).
Qed.

Lemma list_getitem_lt {A : Type} (l : list A) (i : nat) :
  (i < length l)%nat -> exists x, l !! i = Some x /\ list_getitem l (Z.of_nat i) = Ok x.
Proof.
  intros Hi. destruct (lookup_lt_is_Some_2 l i Hi) as [x Hx]. exists x. split; [done|].
  unfold list_getitem. rewrite norm_index_in by lia. by rewrite Nat2Z.id, Hx.
Qed.

Lemma take_action_ok (g : rng) s (explore : bool) st :
  wf st -> state_ok s -> (2 <= _n_actions st)%nat ->
  exists (a : action) (i : nat),
    take_action g s explore st = (st, Ok a) /\ _possible_actions st !! i = Some a.
Proof.
  intros [Hn _ (qs & HQ & Hqs) (ns & HN & Hns) _] Hs Hge.
  unfold take_action, take_action_epsilon. run. rewrite HN.
  destruct (take_pair_ok (_n_actions st) ns s) as (x & y & ->); [done|lia|done|]. cbn.
  match goal with |- context [if ?c then _ else _] => destruct c end.
  - unfold random_choice. destruct (Nat.eqb_spec (_n_actions st) 0); [lia|]. cbn.
    destruct (list_getitem_lt (_possible_actions st) (randbelow g mod _n_actions st))
      as (a & Ha & ->).
    { rewrite <- Hn. apply Nat.mod_upper_bound. lia. }
    by eauto.
  - rewrite HQ.
    destruct (take_pair_ok (_n_actions st) qs s) as (q & q' & ->); [done|lia|done|]. cbn.
    destruct (np_argmax_pair q q') as (i & -> & Hi). cbn.
    destruct (list_getitem_lt (_possible_actions st) i) as (a & Ha & ->); [lia|].
    by eauto.
Qed.

Lemma py_dict_foldl_lookup `{Countable K} {V : Type} (pairs : list (K * V))
    (m : gmap K V) (k : K) :
  is_Some (m !! k) \/ k ∈ pairs.*1 ->
  is_Some (foldl (fun m kv => <[kv.1 := kv.2]> m) m pairs !! k).
Proof.
  revert m. induction pairs as [|[k' v] pairs IH]; intros m [Hm|Hin]; cbn.
  - done.
  - by apply elem_of_nil in Hin.
  - apply IH. left. destruct (decide (k' = k)) as [->|Hne].
    + rewrite lookup_insert_eq. by eexists.
    + by rewrite lookup_insert_ne.
  - cbn in Hin. apply elem_of_cons in Hin as [->|Hin]; apply IH.
    + left. rewrite lookup_insert_eq. by eexists.
    + by right.
Qed.

Lemma action2id_lookup st (a : action) (i : nat) :
  wf st -> _possible_actions st !! i = Some a -> is_Some (_action2id st !! a).
Proof.
  intros [Hn Hd _ _ _] Ha. rewrite Hd. unfold py_dict.
  apply py_dict_foldl_lookup. right.
  rewrite fst_zip.
  - apply list_elem_of_lookup. by eauto.
  - unfold range. rewrite length_fmap, length_seq. lia.
Qed.

(** On a well-formed agent [take_action] returns one of the possible
    actions or raises [IndexError]; nothing else. *)
Lemma take_action_cases (g : rng) s (explore : bool) st :
  wf st ->
  (exists (a : action) (i : nat),
      take_action g s explore st = (st, Ok a) /\ _possible_actions st !! i = Some a) \/
  take_action g s explore st = (st, Raise IndexError).
Proof.
  intros [Hn _ (qs & HQ & Hqs) (ns & HN & Hns) _].
  assert (Htake : forall xs : list num,
            (exists x y, table_take (Array (NdArray [11; 22; _n_actions st]%nat xs))
                           [s.1; s.2] = Ok [x; y]) \/
            table_take (Array (NdArray [11; 22; _n_actions st]%nat xs)) [s.1; s.2]
              = Raise IndexError).
  { intros xs. unfold table_take. cbn [ndarray_take data]. unfold list_getitem.
    destruct (norm_index (length xs) s.1) as [k1|]; [|by right].
    destruct (xs !! k1); [|by right].
    destruct (norm_index (length xs) s.2) as [k2|]; [|by right].
    destruct (xs !! k2); [|by right]. left. by eauto. }
  assert (Hget : forall i : Z,
            (exists (a : action) (k : nat),
                list_getitem (_possible_actions st) i = Ok a /\
                _possible_actions st !! k = Some a) \/
            list_getitem (_possible_actions st) i = Raise IndexError).
  { intros i. unfold list_getitem.
    destruct (norm_index (length (_possible_actions st)) i) as [k|]; [|by right].
    destruct (_possible_actions st !! k) as [a|] eqn:Ha; [|by right]. left. by eauto. }
  unfold take_action, take_action_epsilon. run. rewrite HN.
  destruct (Htake ns) as [(x & y & ->)| ->]; [|by right]. cbn.
  match goal with |- context [if ?c then _ else _] => destruct c end.
  - unfold random_choice. destruct (_n_actions st =? 0)%nat; [by right|]. cbn.
    destruct (Hget (Z.of_nat (randbelow g mod _n_actions st))) as [(a & k & -> & Ha)| ->];
      [left|right]; by eauto.
  - rewrite HQ. destruct (Htake qs) as [(q & q' & ->)| ->]; [|by right]. cbn.
    destruct (np_argmax_pair q q') as (i & -> & Hi). cbn.
    destruct (Hget (Z.of_nat i)) as [(a & k & -> & Ha)| ->]; [left|right]; by eauto.
Qed.

Lemma memorize_run st s (a : action) (id : Z) :
  _action2id st !! a = Some id ->
  _memorize s a st =
    (set_past_actions (deque_append (_past_actions st) id)
       (set_past_states (deque_append (_past_states st) s) st), Ok tt).
Proof. intros Hid. unfold _memorize. run. by rewrite Hid. Qed.

(** A call of [observe_and_act] with no reward and no termination. *)
Lemma observe_plain_run (g : rng) s st (a : action) (id : Z) :
  take_action g s true st = (st, Ok a) ->
  _action2id st !! a = Some id ->
  observe_and_act g s None false st =
    (set_past_actions (deque_append (_past_actions st) id)
       (set_past_states (deque_append (_past_states st) s) st), Ok (Some a)).
Proof.
  intros Ht Hid. unfold observe_and_act. cbn [negb].
  unfold bind at 1. unfold bind at 1. rewrite Ht.
  unfold bind at 1. rewrite (memorize_run st s a id Hid). by cbn.
Qed.

Lemma update_short_history (terminate : bool) st :
  (length (items (_past_states st)) = 0)%nat \/
  (terminate = false /\ (length (items (_past_states st)) <= 1)%nat) ->
  _update terminate st = (st, Raise IndexError).
Proof.
  intros Hlen. unfold _update. run. unfold deque_len, deque_getitem.
  destruct Hlen as [Hlen|[-> Hlen]].
  - rewrite Hlen. rewrite andb_false_r. cbn.
    by rewrite list_getitem_short by (rewrite ?Hlen; cbn; lia).
  - cbn. destruct (items (_past_states st)) as [|s0 [|s1 l]]; cbn in Hlen; [| |lia].
    + by rewrite list_getitem_short by (cbn; lia).
    + rewrite list_getitem_0. cbn. by rewrite list_getitem_short by (cbn; lia).
Qed.

(** ** Writes keep the tables well formed *)

Lemma table_setitem_inv (t t' : table) (i j k : Z) (x : num) :
  table_setitem t i j k x = Ok t' -> cell_written t t' i j k x.
Proof.
  unfold table_setitem, ndarray_setitem. destruct t as [a|l]; [|done].
  destruct (offset3 a i j k) as [o|e] eqn:Ho; [|done].
  destruct (Nat.ltb_spec o (length (data a))); [|done].
  intros [= <-]. by exists a, o.
Qed.

Lemma cell_written_ok (n : nat) (t t' : table) (i j k : Z) (x : num) :
  cell_written t t' i j k x -> table_ok n t -> table_ok n t'.
Proof.
  intros (a & o & -> & _ & _ & ->) (xs & [= ->] & Hlen). cbn.
  exists (<[o := x]> xs). by rewrite length_insert.
Qed.

Lemma cell_written_other (t t' : table) (i j k : Z) (x : num) :
  cell_written t t' i j k x ->
  exists o : nat, cells t' = <[o := x]> (cells t) /\
    forall o' : nat, o' <> o -> cells t' !! o' = cells t !! o'.
Proof.
  intros (a & o & -> & _ & _ & ->). exists o. cbn. split; [done|].
  intros o' Hne. by apply list_lookup_insert_ne.
Qed.

Lemma step_effect_wf st0 (out : agent * result unit) :
  step_effect st0 out -> wf st0 -> wf out.1.
Proof.
  unfold step_effect. destruct out as [st1 [[]|e]]; cbn.
  - intros (i & j & k & x & y & HN & HQ & ->) [Hn Hd HQ0 HN0 Hm].
    apply table_setitem_inv in HN, HQ. destruct st0. cbn in *.
    constructor; cbn; try done; by eapply cell_written_ok.
  - intros [HQ [->|(i & j & k & x & HN & ->)]] [Hn Hd HQ0 HN0 Hm]; [done|].
    apply table_setitem_inv in HN. destruct st0. cbn in *.
    constructor; cbn; try done. by eapply cell_written_ok.
Qed.

Lemma update_wf (terminate : bool) st : wf st -> wf (_update terminate st).1.
Proof.
  intros Hwf. destruct (update_cases terminate st) as [[e ->]|(r & rest & Hr & Hstep)];
    [done|].
  eapply step_effect_wf; [done|]. destruct Hwf. by destruct st.
Qed.

Lemma update_completes (terminate : bool) (n : nat) st :
  table_ok n (_state_action_values st) ->
  table_ok n (_state_action_visits st) ->
  history_ready terminate n st ->
  items (_past_returns st) <> [] ->
  (_update terminate st).2 = Ok tt.
Proof.
  intros (qs & HQ & Hqs) (ns & HN & Hns) Hready Hr.
  destruct (items (_past_returns st)) as [|r rest] eqn:Hrs; [done|].
  destruct Hready as [[-> (s & a & Hs & Ha & Hsok & Haok)]
                     |(s & a & s' & a' & Hs & Ha & Hsok & Hsok' & Haok & Haok')].
  - destruct (lookup_lt_is_Some_2 ns (flat n s a)) as [n0 Hn0];
      [rewrite Hns; by apply flat_lt|].
    destruct (lookup_lt_is_Some_2 qs (flat n s a)) as [q0 Hq0];
      [rewrite Hqs; by apply flat_lt|].
    by rewrite (update_terminal_one_run st s a r rest _ _ (flat n s a) (flat n s a) n0 q0)
      by (done || by apply offset3_ok).
  - destruct (lookup_lt_is_Some_2 ns (flat n s a)) as [n0 Hn0];
      [rewrite Hns; by apply flat_lt|].
    destruct (lookup_lt_is_Some_2 qs (flat n s a)) as [q0 Hq0];
      [rewrite Hqs; by apply flat_lt|].
    destruct (lookup_lt_is_Some_2 ns (flat n s' a')) as [n1 Hn1];
      [rewrite Hns; by apply flat_lt|].
    destruct (lookup_lt_is_Some_2 qs (flat n s' a')) as [q1 Hq1];
      [rewrite Hqs; by apply flat_lt|].
    destruct terminate.
    + by rewrite (update_terminal_two_run st s a s' a' r rest _ _
                    (flat n s' a') (flat n s' a') n1 q1)
        by (done || by apply offset3_ok).
    + by rewrite (update_nonterminal_run st s a s' a' r rest _ _
                    (flat n s a) (flat n s a) (flat n s' a') n0 q0 q1)
        by (done || by apply offset3_ok).
Qed.

(** ** Terminal calls of [observe_and_act] *)

Lemma observe_terminate_run (g : rng) s (reward : option num) st :
  observe_and_act g s reward true st =
    match reward with
    | None => ((_clear_cache st).1, Ok None)
    | Some r =>
        let u := _update true
                   (set_past_returns (deque_append (_past_returns st) r) st) in
        match u.2 with
        | Ok _ => ((_clear_cache u.1).1, Ok None)
        | Raise e => (u.1, Raise e)
        end
    end.
Proof.
  unfold observe_and_act. cbn [negb]. destruct reward as [r|].
  - unfold bind at 1. unfold ret at 1. unfold bind at 1. unfold bind at 1.
    unfold modify at 1.
    destruct (_update true _) as [u [[]|e]]; [|done]. by cbn.
  - by cbn.
Qed.

Lemma clear_cache_wf st : wf st -> wf (_clear_cache st).1.
Proof. intros []. by destruct st. Qed.

(** ** Well-formedness is an invariant *)

Lemma init_wf (possible_actions : list action) (n_0 gamma : num) (base_name : string) :
  wf (init possible_actions n_0 gamma base_name).
Proof.
  constructor; cbn; try done.
  - eexists. split; [reflexivity|]. by rewrite length_replicate.
  - eexists. split; [reflexivity|]. by rewrite length_replicate.
Qed.

Lemma set_past_returns_wf (q : deque num) st :
  maxlen q = 2%nat -> wf st -> wf (set_past_returns q st).
Proof. intros Hq [? ? ? ? (? & ? & ?)]. by destruct st. Qed.

Lemma memorize_wf st s (a : action) : wf st -> wf (_memorize s a st).1.
Proof.
  intros Hwf. unfold _memorize. run.
  destruct (_action2id st !! a) as [id|]; [|done]. cbn.
  destruct Hwf as [? ? ? ? (? & ? & ?)]. by destruct st.
Qed.

Lemma observe_wf (g : rng) s (reward : option num) (terminate : bool) st :
  wf st -> wf (observe_and_act g s reward terminate st).1.
Proof.
  intros Hwf.
  assert (Hupd : forall st0 (r : num) (t : bool), wf st0 ->
            wf (_update t (set_past_returns (deque_append (_past_returns st0) r) st0)).1).
  { intros st0 r t Hwf0. apply update_wf. apply set_past_returns_wf; [|done].
    by destruct Hwf0 as [_ _ _ _ (_ & _ & ?)]. }
  destruct terminate.
  - rewrite observe_terminate_run. destruct reward as [r|]; [|by apply clear_cache_wf].
    cbn zeta. specialize (Hupd st r true Hwf).
    destruct (_update true _) as [u [[]|e]]; cbn in *; [|done].
    by apply (clear_cache_wf u).
  - remember (observe_and_act g s reward false st) as out eqn:Hout.
    unfold observe_and_act in Hout. cbn [negb] in Hout.
    unfold bind at 1 in Hout. unfold bind at 1 in Hout.
    pose proof (take_action_readonly g s true st) as Hro.
    destruct (take_action g s true st) as [st1 [a|e]]; cbn in Hro; subst st1;
      [|by subst out].
    unfold bind at 1 in Hout.
    pose proof (memorize_wf st s a Hwf) as Hm.
    destruct (_memorize s a st) as [st2 [[]|e]]; cbn in Hm; [|by subst out].
    unfold ret at 1 in Hout. destruct reward as [r|].
    + unfold bind at 1 in Hout. unfold bind at 1 in Hout. unfold modify at 1 in Hout.
      specialize (Hupd st2 r false Hm).
      destruct (_update false _) as [u [[]|e]]; cbn in Hupd; by subst out.
    + by subst out.
Qed.

(** ** The claims *)

(** C8: [take_action] mutates nothing: after the call the Q table, the N
    table (no visit count is incremented) and the three history buffers are
    what they were, whatever the inputs and the random draws, and whether the
    call returns or raises. *)
Theorem take_action_mutates_nothing (g : rng) s (explore : bool) st :
  let st' := (take_action g s explore st).1 in
  _state_action_values st' = _state_action_values st /\
  _state_action_visits st' = _state_action_visits st /\
  _past_states st' = _past_states st /\
  _past_actions st' = _past_actions st /\
  _past_returns st' = _past_returns st /\
  st' = st.
Proof. cbn. by rewrite take_action_readonly. Qed.




(** C9: with empty history buffers the update step fails with [IndexError]:
    [_update] itself, for both values of [terminate] and before any mutation;
    [observe_and_act] called with a reward and [terminate=True]; and, on a
    well-formed agent, [observe_and_act] called with a reward and
    [terminate=False], where the one pair just recorded is one fewer than the
    update needs. *)
Theorem update_on_empty_history_fails (g : rng) s (r : num) (terminate : bool) st :
  items (_past_states st) = [] ->
  items (_past_actions st) = [] ->
  _update terminate st = (st, Raise IndexError) /\
  (observe_and_act g s (Some r) true st).2 = Raise IndexError /\
  (wf st -> (observe_and_act g s (Some r) false st).2 = Raise IndexError).
Proof.
  intros Hs Ha. split; [|split].
  - apply update_short_history. left. by rewrite Hs.
  - rewrite observe_terminate_run. cbn zeta.
    rewrite update_short_history; [done|]. left. cbn. by rewrite Hs.
  - intros Hwf. unfold observe_and_act. cbn [negb].
    unfold bind at 1. unfold bind at 1.
    destruct (take_action_cases g s true st Hwf) as [(a & i & -> & Hi)| ->]; [|done].
    destruct (action2id_lookup st a i Hwf Hi) as [id Hid].
    unfold bind at 1. rewrite (memorize_run st s a id Hid).
    unfold ret at 1. unfold bind at 1. unfold bind at 1. unfold modify at 1.
    rewrite update_short_history; [done|]. right. split; [done|].
    cbn [_past_states set_past_returns set_past_actions set_past_states
         deque_append items].
    rewrite Hs. cbn [app length].
    destruct (maxlen (_past_states st) <? 1)%nat; cbn; lia.
Qed.


Lemma update_n_actions (terminate : bool) st :
  _n_actions (_update terminate st).1 = _n_actions st.
Proof.
  destruct (update_cases terminate st) as [[e ->]|(r & rest & Hr & Hstep)]; [done|].
  unfold step_effect in Hstep. destruct (_update terminate st) as [st1 [[]|e]]; cbn in *.
  - by destruct Hstep as (i & j & k & x & y & _ & _ & ->).
  - by destruct Hstep as [_ [->|(i & j & k & x & _ & ->)]].
Qed.

(** ** The terminal update, case by case *)








(** C10, amended: a call of [_update] never touches [gamma], [n_0], the
    action-id mappings or the recorded states and actions.  A call that
    completes pops exactly one reward and writes exactly one cell of the N
    table and the cell of the same index of the Q table, every other entry
    staying as it was; it completes whenever the tables are well formed, the
    history holds the pairs it needs and a reward is pending.  A call that
    raises pops at most one reward, writes no cell of Q and at most one
    cell of N. *)
Theorem update_touches_one_cell (terminate : bool) st :
  let out := _update terminate st in
  (same_settings st out.1 /\
   _past_states out.1 = _past_states st /\
   _past_actions out.1 = _past_actions st /\
   maxlen (_past_returns out.1) = maxlen (_past_returns st)) /\
  match out.2 with
  | Ok _ =>
      exists (r : num) (i j k : Z) (x y : num),
        items (_past_returns st) = r :: items (_past_returns out.1) /\
        cell_written (_state_action_visits st) (_state_action_visits out.1) i j k x /\
        cell_written (_state_action_values st) (_state_action_values out.1) i j k y
  | Raise _ =>
      (_past_returns out.1 = _past_returns st \/
       exists r : num, items (_past_returns st) = r :: items (_past_returns out.1)) /\
      _state_action_values out.1 = _state_action_values st /\
      (_state_action_visits out.1 = _state_action_visits st \/
       exists (i j k : Z) (x : num),
         cell_written (_state_action_visits st) (_state_action_visits out.1) i j k x)
  end /\
  (forall n : nat,
      table_ok n (_state_action_values st) ->
      table_ok n (_state_action_visits st) ->
      history_ready terminate n st ->
      items (_past_returns st) <> [] ->
      out.2 = Ok tt).
Proof.
  cbn zeta. split; [|split]; [| |intros n; by apply update_completes].
  - destruct (update_cases terminate st) as [[e ->]|(r & rest & Hr & Hstep)]; [done|].
    unfold step_effect in Hstep.
    destruct (_update terminate st) as [st1 [[]|e]]; cbn in *.
    + destruct Hstep as (i & j & k & x & y & _ & _ & ->). by destruct st.
    + destruct Hstep as [_ [->|(i & j & k & x & _ & ->)]]; by destruct st.
  - destruct (update_cases terminate st) as [[e ->]|(r & rest & Hr & Hstep)].
    { cbn. by eauto. }
    unfold step_effect in Hstep.
    destruct (_update terminate st) as [st1 [[]|e]]; cbn in *.
    + destruct Hstep as (i & j & k & x & y & HN & HQ & Hst1).
      apply table_setitem_inv in HN, HQ.
      exists r, i, j, k, x, y. rewrite Hst1. cbn. by rewrite Hr.
    + destruct Hstep as [HQ [->|(i & j & k & x & HN & Hst1)]].
      * cbn. split; [right; exists r; by rewrite Hr|]. by eauto.
      * apply table_setitem_inv in HN. split; [|split; [done|right; by eauto]].
        right. exists r. rewrite Hst1. cbn. by rewrite Hr.
Qed.

(** ** [tolist] and [np.asarray] are inverse on a well-formed table *)

Lemma length_chunks {A : Type} (k c : nat) (l : list A) : length (chunks k c l) = c.
Proof. revert l. induction c as [|c IH]; intros l; cbn; [done|]. by rewrite IH. Qed.

Lemma chunks_lengths {A : Type} (k c : nat) (l : list A) :
  (k * c <= length l)%nat -> Forall (fun r => length r = k) (chunks k c l).
Proof.
  revert l. induction c as [|c IH]; intros l Hlen; cbn; [done|].
  constructor.
  - rewrite length_take. lia.
  - apply IH. rewrite length_drop. lia.
Qed.

Lemma concat_chunks {A : Type} (k c : nat) (l : list A) :
  length l = (k * c)%nat -> concat (chunks k c l) = l.
Proof.
  revert l. induction c as [|c IH]; intros l Hlen; cbn.
  - destruct l; [done|]. cbn in Hlen. lia.
  - rewrite IH; [by rewrite take_drop|]. rewrite length_drop. lia.
Qed.

Lemma concat_concat_fmap {A : Type} (L : list (list (list A))) :
  concat (concat L) = concat ((fun x => concat x) <$> L).
Proof.
  induction L as [|x L IH]; [done|]. cbn. by rewrite concat_app, IH.
Qed.

Lemma forallb_Forall_true {A : Type} (f : A -> bool) (l : list A) :
  Forall (fun x => f x = true) l -> forallb f l = true.
Proof. induction 1 as [|x l Hx _ IH]; [done|]. cbn. by rewrite Hx, IH. Qed.

Lemma asarray_tolist (d1 d2 d3 : nat) (xs : list num) :
  (0 < d1)%nat -> (0 < d2)%nat -> length xs = (d1 * d2 * d3)%nat ->
  exists l, tolist (NdArray [d1; d2; d3] xs) = Ok l /\
    asarray l = Ok (NdArray [d1; d2; d3] xs).
Proof.
  intros Hd1 Hd2 Hlen. eexists. split; [reflexivity|]. cbn [data].
  set (rows := chunks (d2 * d3) d1 xs).
  assert (Hrows : Forall (fun r => length r = (d2 * d3)%nat) rows).
  { apply chunks_lengths. rewrite Hlen. nia. }
  assert (Hcells : Forall (fun r => Forall (fun c => length c = d3) (chunks d3 d2 r)) rows).
  { eapply Forall_impl; [exact Hrows|]. intros r Hr. apply chunks_lengths. rewrite Hr. nia. }
  assert (Hcat : concat (concat (chunks d3 d2 <$> rows)) = xs).
  { rewrite concat_concat_fmap, <- list_fmap_compose.
    transitivity (concat rows); [|apply concat_chunks; rewrite Hlen; nia].
    f_equal. rewrite <- (list_fmap_id rows) at 2.
    apply Forall_fmap_ext. eapply Forall_impl; [exact Hrows|].
    intros r Hr. cbn. apply concat_chunks. rewrite Hr. nia. }
  assert (Hlr : length rows = d1) by apply length_chunks.
  unfold asarray. rewrite length_fmap, Hlr.
  destruct (Nat.eqb_spec d1 0); [lia|].
  assert (Hd2' : match chunks d3 d2 <$> rows with r :: _ => length r | [] => 0%nat end = d2).
  { destruct rows; cbn in *; [lia|]. apply length_chunks. }
  rewrite Hd2'.
  rewrite forallb_Forall_true; cycle 1.
  { apply Forall_fmap. eapply Forall_impl; [exact Hrows|]. intros r _. cbn.
    rewrite length_chunks. apply Nat.eqb_refl. }
  cbn [negb]. destruct (Nat.eqb_spec d2 0); [lia|].
  assert (Hd3' : match chunks d3 d2 <$> rows with (c :: _) :: _ => length c | _ => 0%nat end = d3).
  { destruct rows as [|r rows']; cbn in *; [lia|].
    apply Forall_cons in Hrows as [Hr _].
    destruct d2 as [|d2']; [lia|]. cbn. rewrite length_take. nia. }
  rewrite Hd3'.
  rewrite forallb_Forall_true; cycle 1.
  { apply Forall_fmap. eapply Forall_impl; [exact Hcells|]. intros r Hr. cbn.
    apply forallb_Forall_true. eapply Forall_impl; [exact Hr|].
    intros c Hc. cbn in Hc. rewrite Hc. apply Nat.eqb_refl. }
  cbn [negb]. by rewrite Hcat.
Qed.

Lemma table_roundtrip (n : nat) (t : table) :
  table_ok n t ->
  exists l, table_tolist t = Ok (Nested l) /\ table_asarray (Nested l) = Ok t.
Proof.
  intros (xs & -> & Hlen).
  destruct (asarray_tolist 11 22 n xs) as (l & Hl & Ha); [lia|lia|done|].
  exists l. unfold table_tolist, table_asarray. by rewrite Hl, Ha.
Qed.

(** ** [save] then [load] *)

#[local] Arguments table_tolist : simpl never.
#[local] Arguments table_asarray : simpl never.

Lemma plot_slice_ok (n : nat) (t : table) :
  table_ok n t -> (0 < n)%nat -> plot_slice t = Ok tt.
Proof.
  intros (xs & -> & _) Hn. unfold plot_slice. cbn [shape].
  destruct (Nat.ltb_spec 0 n); [done|lia].
Qed.

(** C5: on an agent whose tables are arrays of shape [11, 22, n] with at
    least one action, [save] completes; it clears the three history buffers
    first, writes the pickle with both tables in nested-list form, and leaves
    the agent with its Q and N tables as arrays equal to what they were.
    [load] of the pickle then returns an agent whose Q and N tables are arrays
    equal, entry for entry, to the tables before [save], whose history buffers
    are empty and whose settings are those of the saved agent. *)
Theorem save_then_load (output_dir : string) (iteration : option Z)
    (fs : gmap (string * option Z * string) file) st (n : nat) :
  table_ok n (_state_action_values st) ->
  table_ok n (_state_action_visits st) ->
  (0 < n)%nat ->
  let out := save output_dir iteration (st, fs) in
  let fname := (os_path_join output_dir (_base_name st), iteration, "pkl"%string) in
  out.2 = Ok tt /\
  history_cleared out.1.1 /\
  _state_action_values out.1.1 = _state_action_values st /\
  _state_action_visits out.1.1 = _state_action_visits st /\
  (exists (obj : agent) lq ln,
      out.1.2 !! fname = Some (Pickle obj) /\ history_cleared obj /\
      _state_action_values obj = Nested lq /\ _state_action_visits obj = Nested ln) /\
  (exists st' : agent,
      load fname out.1.2 = Ok st' /\
      _state_action_values st' = _state_action_values st /\
      _state_action_visits st' = _state_action_visits st /\
      history_cleared st' /\ same_settings st st').
Proof.
  intros HQ HN Hn.
  destruct (table_roundtrip n _ HQ) as (lq & Hlq & Haq).
  destruct (table_roundtrip n _ HN) as (ln & Hln & Han).
  pose proof (plot_slice_ok n _ HQ Hn) as Hpq.
  pose proof (plot_slice_ok n _ HN Hn) as Hpn.
  intros out fname.
  assert (Hout : out =
    ((set_past_returns (deque_new 2)
        (set_past_states (deque_new 2) (set_past_actions (deque_new 2) st)),
      <[(os_path_join output_dir (_base_name st), iteration, "png"%string) := Image]>
        (<[fname := Pickle
             (set_visits (Nested ln) (set_values (Nested lq)
                (set_past_returns (deque_new 2)
                   (set_past_states (deque_new 2)
                      (set_past_actions (deque_new 2) st)))))]> fs)),
     Ok tt)).
  { subst out fname. unfold save, _save_plot, _save_local, _clear_cache.
    unfold bind, get, lift, ret, modify, on_fst. cbn.
    rewrite Hlq. cbn. rewrite Hln. cbn. rewrite Haq. cbn. rewrite Han. cbn.
    rewrite Hpq, Hpn. by destruct st. }
  rewrite Hout. cbn [fst snd].
  split; [done|]. split; [done|]. split; [done|]. split; [done|]. split.
  - eexists. exists lq, ln. split.
    + rewrite lookup_insert_ne by (subst fname; intros [=]).
      by rewrite lookup_insert_eq.
    + done.
  - unfold load.
    rewrite lookup_insert_ne by (subst fname; intros [=]).
    rewrite lookup_insert_eq. cbn. rewrite Haq. cbn. rewrite Han.
    eexists. split; [reflexivity|]. by destruct st.
Qed.

End AgentProperties.

(** * Further properties of the agent *)

Section AgentExtras.

Context `{Ar : Arith} {action : Type} `{Countable action}.

Abbreviation agent := (Agent (action := action)).
Implicit Types (st : agent) (s : Z * Z) (a : Z).

#[local] Arguments table_getitem : simpl never.
#[local] Arguments table_setitem : simpl never.
#[local] Arguments table_take : simpl never.
#[local] Arguments np_argmax : simpl never.
#[local] Arguments list_getitem : simpl never.

Ltac run := unfold bind, get, lift, ret, modify; cbn.

Ltac fields :=
  cbn [_possible_actions _n_actions _gamma _n_0 _base_name _action2id _id2action
       _state_action_values _state_action_visits _past_actions _past_states
       _past_returns set_values set_visits set_past_actions set_past_states
       set_past_returns] in *.

Lemma getitem_written (n : nat) (xs : list num) s a (x : num) :
  state_ok s -> 0 <= a < Z.of_nat n -> length xs = (11 * 22 * n)%nat ->
  table_getitem (Array (NdArray [11; 22; n]%nat (<[flat n s a := x]> xs))) s.1 s.2 a
    = Ok x.
Proof.
  intros Hs Ha Hlen.
  apply (getitem_array _ s.1 s.2 a (flat n s a)).
  - by apply offset3_ok.
  - cbn [data]. apply list_lookup_insert_eq.
    pose proof (flat_lt n s a Hs Ha). lia.
Qed.

(** ** The constructor *)

Lemma norm_index_out (len : nat) (i : Z) :
  out_of_range len i -> norm_index len i = None.
Proof.
  intros [Hi|Hi]; unfold norm_index.
  - destruct (Z.ltb_spec i (Z.of_nat len)); [lia|]. rewrite andb_false_r.
    destruct (Z.ltb_spec i 0); [lia|]. by rewrite andb_false_r.
  - destruct (Z.leb_spec 0 i); [lia|]. cbn.
    by destruct (Z.leb_spec (- Z.of_nat len) i); [lia|].
Qed.

Lemma norm_index_cases (len : nat) (i : Z) :
  (exists k : nat, norm_index len i = Some k /\ (k < len)%nat /\ ~ out_of_range len i) \/
  (norm_index len i = None /\ out_of_range len i).
Proof.
  unfold norm_index, out_of_range.
  destruct (Z.leb_spec 0 i), (Z.ltb_spec i (Z.of_nat len)); cbn.
  - left. eexists. split; [done|]. lia.
  - destruct (Z.leb_spec (- Z.of_nat len) i), (Z.ltb_spec i 0); cbn;
      try (right; split; [done|lia]). lia.
  - destruct (Z.leb_spec (- Z.of_nat len) i), (Z.ltb_spec i 0); cbn;
      try (right; split; [done|lia]); try lia.
    left. eexists. split; [done|]. lia.
  - destruct (Z.leb_spec (- Z.of_nat len) i), (Z.ltb_spec i 0); cbn;
      try (right; split; [done|lia]); lia.
Qed.

(** X1: in a freshly constructed agent every cell of the Q table and of the
    N table that numpy can address reads zero: [table[i, j, k]] is zero when
    each index is within its axis (negative indices counting from the end) and
    raises [IndexError] otherwise; the three history buffers are empty queues
    of capacity 2. *)
Theorem init_tables_zero (possible_actions : list action) (n_0 gamma : num)
    (base_name : string) (i j k : Z) :
  let st := init possible_actions n_0 gamma base_name in
  let n := length possible_actions in
  table_getitem (_state_action_values st) i j k =
    table_getitem (_state_action_visits st) i j k /\
  (table_getitem (_state_action_values st) i j k = Ok zero /\
   ~ out_of_range 11 i /\ ~ out_of_range 22 j /\ ~ out_of_range n k \/
   table_getitem (_state_action_values st) i j k = Raise IndexError /\
   (out_of_range 11 i \/ out_of_range 22 j \/ out_of_range n k)) /\
  history_cleared st.
Proof.
  cbn zeta. split; [done|]. split; [|done].
  unfold init. cbn [_state_action_values].
  unfold table_getitem, ndarray_getitem, offset3, np_zeros. cbn [shape data].
  destruct (norm_index_cases 11 i) as [(i' & -> & Hi & Hi')|[-> Hi]];
    [|right; split; [done|by left]].
  destruct (norm_index_cases 22 j) as [(j' & -> & Hj & Hj')|[-> Hj]];
    [|right; split; [done|by right; left]].
  destruct (norm_index_cases (length possible_actions) k)
    as [(k' & -> & Hk & Hk')|[-> Hk]];
    [|right; split; [done|by right; right]].
  left. by rewrite lookup_replicate_2 by nia.
Qed.

(** ** The action-id mappings *)

Lemma range_S (n : nat) : range (S n) = range n ++ [Z.of_nat n].
Proof. unfold range. by rewrite seq_S, fmap_app. Qed.

Lemma length_range (n : nat) : length (range n) = n.
Proof. unfold range. by rewrite length_fmap, length_seq. Qed.

Lemma py_dict_snoc `{Countable K} {V : Type} (pairs : list (K * V)) (k : K) (v : V) :
  py_dict (pairs ++ [(k, v)]) = <[k := v]> (py_dict pairs).
Proof. unfold py_dict. by rewrite foldl_app. Qed.

Lemma action2id_snoc (l : list action) (x : action) :
  py_dict (zip (l ++ [x]) (range (length (l ++ [x])))) =
    <[x := Z.of_nat (length l)]> (py_dict (zip l (range (length l)))).
Proof.
  rewrite length_app. cbn [length]. rewrite Nat.add_1_r, range_S.
  rewrite zip_with_app by (by rewrite length_range). cbn [zip_with].
  apply py_dict_snoc.
Qed.

Lemma id2action_snoc (l : list action) (x : action) :
  py_dict (zip (range (length (l ++ [x]))) (l ++ [x])) =
    <[Z.of_nat (length l) := x]> (py_dict (zip (range (length l)) l)).
Proof.
  rewrite length_app. cbn [length]. rewrite Nat.add_1_r, range_S.
  rewrite zip_with_app by (by rewrite length_range). cbn [zip_with].
  apply py_dict_snoc.
Qed.

Lemma action2id_init_lookup (l : list action) (x : action) :
  match py_dict (zip l (range (length l))) !! x with
  | Some z =>
      exists j : nat, z = Z.of_nat j /\ l !! j = Some x /\
        forall j' : nat, l !! j' = Some x -> (j' <= j)%nat
  | None => x ∉ l
  end.
Proof.
  induction l as [|y l IH] using rev_ind.
  - cbn. rewrite lookup_empty. apply not_elem_of_nil.
  - rewrite action2id_snoc. destruct (decide (y = x)) as [->|Hne].
    + rewrite lookup_insert_eq. exists (length l). split; [done|]. split.
      * by rewrite lookup_app_r, Nat.sub_diag by lia.
      * intros j' Hj'. apply lookup_lt_Some in Hj'. rewrite length_app in Hj'.
        cbn in Hj'. lia.
    + rewrite lookup_insert_ne by done.
      destruct (py_dict (zip l (range (length l))) !! x) as [z|].
      * destruct IH as (j & -> & Hj & Hmax). exists j. split; [done|]. split.
        -- by rewrite lookup_app_l by (by eapply lookup_lt_Some).
        -- intros j' Hj'. destruct (decide (j' < length l)%nat) as [Hlt|Hge].
           ++ rewrite lookup_app_l in Hj' by done. by apply Hmax.
           ++ rewrite lookup_app_r in Hj' by lia.
              destruct (j' - length l)%nat; cbn in Hj'; [congruence|done].
      * intros Hin. apply elem_of_app in Hin as [Hin|Hin]; [done|].
        apply list_elem_of_singleton in Hin. congruence.
Qed.

Lemma id2action_init_lookup (l : list action) (i : nat) :
  py_dict (zip (range (length l)) l) !! Z.of_nat i = l !! i.
Proof.
  induction l as [|y l IH] using rev_ind.
  - cbn. by rewrite lookup_empty.
  - rewrite id2action_snoc. destruct (decide (i = length l)) as [->|Hne].
    + rewrite lookup_insert_eq. by rewrite lookup_app_r, Nat.sub_diag by lia.
    + rewrite lookup_insert_ne by lia. rewrite IH.
      destruct (decide (i < length l)%nat) as [Hlt|Hge].
      * by rewrite lookup_app_l by done.
      * rewrite lookup_ge_None_2 by lia. symmetry. apply lookup_ge_None_2.
        rewrite length_app. cbn. lia.
Qed.

(** X2: the two mappings built by the constructor are inverse to each other
    on the actions: the id [i] decodes to the action at position [i], and an
    action encodes to a position that holds it, the last one when the action
    occurs more than once; so decoding after encoding gives the action back,
    and with pairwise distinct actions encoding after decoding gives the id
    back. *)
Theorem init_action_ids (possible_actions : list action) (n_0 gamma : num)
    (base_name : string) (i : nat) (x : action) :
  possible_actions !! i = Some x ->
  let st := init possible_actions n_0 gamma base_name in
  _id2action st !! Z.of_nat i = Some x /\
  exists j : nat,
    _action2id st !! x = Some (Z.of_nat j) /\
    _id2action st !! Z.of_nat j = Some x /\
    (forall j' : nat, possible_actions !! j' = Some x -> (j' <= j)%nat) /\
    (NoDup possible_actions -> j = i).
Proof.
  intros Hi. cbn zeta. unfold init. cbn [_id2action _action2id].
  rewrite id2action_init_lookup. split; [done|].
  pose proof (action2id_init_lookup possible_actions x) as Hx.
  destruct (py_dict (zip possible_actions (range (length possible_actions))) !! x)
    as [z|].
  - destruct Hx as (j & -> & Hj & Hmax). exists j.
    rewrite id2action_init_lookup. repeat split; try done.
    intros Hnd. by eapply NoDup_lookup.
  - exfalso. apply Hx. apply list_elem_of_lookup. by eauto.
Qed.

(** ** What every call keeps *)

(** An [_update] leaves an agent that differs from the one before in the two
    tables and the pending rewards only, and it pops at most one reward. *)
Lemma update_shape (terminate : bool) st :
  exists (q : deque num) (t t' : table),
    (_update terminate st).1 = set_values t (set_visits t' (set_past_returns q st)) /\
    (q = _past_returns st \/
     exists r : num, items (_past_returns st) = r :: items q /\
       maxlen q = maxlen (_past_returns st)).
Proof.
  destruct (update_cases terminate st) as [[e ->]|(r & rest & Hr & Hstep)].
  - exists (_past_returns st), (_state_action_values st), (_state_action_visits st).
    split; [by destruct st|by left].
  - unfold step_effect in Hstep.
    destruct (_update terminate st) as [st1 [[]|e]]; cbn in *.
    + destruct Hstep as (i & j & k & x & y & _ & _ & ->).
      eexists _, _, _. split; [reflexivity|]. right. exists r. by rewrite Hr.
    + destruct Hstep as [_ [->|(i & j & k & x & _ & Hst)]].
      * exists (Deque rest (maxlen (_past_returns st))),
          (_state_action_values st), (_state_action_visits st).
        split; [by destruct st|]. right. exists r. by rewrite Hr.
      * exists (Deque rest (maxlen (_past_returns st))), (_state_action_values st),
          (_state_action_visits st1).
        split; [rewrite Hst at 1; by destruct st|]. right. exists r. by rewrite Hr.
Qed.

(** A property kept by the four mutations of [observe_and_act] is kept by
    the call, raising or not. *)
Lemma observe_preserves (P : agent -> Prop) (g : rng) s (reward : option num)
    (terminate : bool) st :
  (forall st0 (x : action) (id : Z), P st0 -> _action2id st0 !! x = Some id ->
     P (set_past_actions (deque_append (_past_actions st0) id)
          (set_past_states (deque_append (_past_states st0) s) st0))) ->
  (forall st0 (r : num), P st0 ->
     P (set_past_returns (deque_append (_past_returns st0) r) st0)) ->
  (forall st0 (t : bool), P st0 -> P (_update t st0).1) ->
  (forall st0, P st0 -> P (_clear_cache st0).1) ->
  P st -> P (observe_and_act g s reward terminate st).1.
Proof.
  intros Hmem Happ Hupd Hclr HP.
  destruct terminate.
  - rewrite observe_terminate_run. destruct reward as [r|]; [|by apply Hclr].
    cbn zeta. specialize (Hupd _ true (Happ st r HP)).
    destruct (_update true _) as [u [[]|e]]; cbn in *; [|done].
    by apply (Hclr u).
  - remember (observe_and_act g s reward false st) as out eqn:Hout.
    unfold observe_and_act in Hout. cbn [negb] in Hout.
    unfold bind at 1 in Hout. unfold bind at 1 in Hout.
    pose proof (take_action_readonly g s true st) as Hro.
    destruct (take_action g s true st) as [st1 [x|e]]; cbn in Hro; subst st1;
      [|by subst out].
    unfold bind at 1 in Hout. unfold _memorize in Hout.
    unfold bind at 1, get at 1 in Hout. cbn beta iota in Hout.
    unfold bind at 1, lift at 1 in Hout.
    destruct (_action2id st !! x) as [id|] eqn:Hid; [|by subst out].
    cbn beta iota in Hout. unfold bind at 1, modify at 1 2 in Hout.
    cbn beta iota in Hout. unfold ret at 1 in Hout.
    specialize (Hmem st x id HP Hid).
    destruct reward as [r|].
    + unfold bind at 1 in Hout. unfold bind at 1 in Hout. unfold modify at 1 in Hout.
      specialize (Hupd _ false (Happ _ r Hmem)).
      destruct (_update false _) as [u [[]|e]]; cbn in Hupd; by subst out.
    + by subst out.
Qed.

Lemma deque_append_length {A : Type} (q : deque A) (x : A) :
  maxlen q = 2%nat -> (length (items q) <= 2)%nat ->
  length (items (deque_append q x)) = Nat.min (S (length (items q))) 2 /\
  maxlen (deque_append q x) = 2%nat.
Proof.
  intros Hm Hlen. unfold deque_append. cbn [items maxlen]. split; [|done].
  rewrite Hm. destruct (Nat.ltb_spec 2 (length (items q ++ [x]))) as [Hlt|Hge];
    rewrite ?length_drop, length_app in *; cbn [length] in *; lia.
Qed.

Lemma deque_append_Forall {A : Type} (P : A -> Prop) (q : deque A) (x : A) :
  Forall P (items q) -> P x -> Forall P (items (deque_append q x)).
Proof.
  intros Hq Hx. unfold deque_append. cbn [items].
  assert (Forall P (items q ++ [x])) by (apply Forall_app; by split; [|constructor]).
  destruct (maxlen q <? length (items q ++ [x]))%nat; [by apply Forall_drop|done].
Qed.

Lemma action2id_range st (x : action) (id : Z) :
  wf st -> _action2id st !! x = Some id ->
  0 <= id < Z.of_nat (_n_actions st) /\
  _possible_actions st !! Z.to_nat id = Some x.
Proof.
  intros [Hn Hd _ _ _] Hid. rewrite Hd, Hn in Hid.
  pose proof (action2id_init_lookup (_possible_actions st) x) as Hx.
  rewrite Hid in Hx. destruct Hx as (j & -> & Hj & _).
  rewrite Nat2Z.id. split; [|done]. apply lookup_lt_Some in Hj. lia.
Qed.

Lemma inv_memorize st s (x : action) (id : Z) :
  wf st /\ history_inv st -> _action2id st !! x = Some id ->
  wf (set_past_actions (deque_append (_past_actions st) id)
        (set_past_states (deque_append (_past_states st) s) st)) /\
  history_inv (set_past_actions (deque_append (_past_actions st) id)
                 (set_past_states (deque_append (_past_states st) s) st)).
Proof.
  intros [Hwf (Hlen & Hle & Hr & Hids)] Hid.
  destruct (action2id_range st x id Hwf Hid) as [Hrange _].
  pose proof Hwf as [? ? ? ? (Hma & Hms & Hmr)].
  destruct (deque_append_length (_past_states st) s Hms Hle) as [Hl1 Hm1].
  destruct (deque_append_length (_past_actions st) id Hma) as [Hl2 Hm2]; [lia|].
  split.
  - constructor; cbn; done.
  - unfold history_inv. fields. rewrite Hl1, Hl2.
    split; [lia|]. split; [lia|]. split; [done|]. by apply deque_append_Forall.
Qed.

Lemma inv_reward st (r : num) :
  wf st /\ history_inv st ->
  wf (set_past_returns (deque_append (_past_returns st) r) st) /\
  history_inv (set_past_returns (deque_append (_past_returns st) r) st).
Proof.
  intros [Hwf (Hlen & Hle & Hr & Hids)].
  pose proof Hwf as [? ? ? ? (Hma & Hms & Hmr)].
  destruct (deque_append_length (_past_returns st) r Hmr Hr) as [Hl Hm].
  split; [by apply set_past_returns_wf|].
  unfold history_inv. fields. rewrite Hl. repeat split; try done. lia.
Qed.

Lemma inv_update (t : bool) st :
  wf st /\ history_inv st ->
  wf (_update t st).1 /\ history_inv (_update t st).1.
Proof.
  intros [Hwf (Hlen & Hle & Hr & Hids)]. split; [by apply update_wf|].
  destruct (update_shape t st) as (q & tq & tn & -> & Hq).
  unfold history_inv. fields. repeat split; try done.
  destruct Hq as [->|(r & Hitems & _)]; [done|].
  rewrite Hitems in Hr. cbn [length] in Hr. lia.
Qed.

Lemma inv_clear st :
  wf st /\ history_inv st ->
  wf (_clear_cache st).1 /\ history_inv (_clear_cache st).1.
Proof.
  intros [Hwf _]. split; [by apply clear_cache_wf|].
  unfold history_inv. cbn. repeat split; (lia || constructor).
Qed.

Lemma observe_inv (g : rng) s (reward : option num) (terminate : bool) st :
  wf st /\ history_inv st ->
  wf (observe_and_act g s reward terminate st).1 /\
  history_inv (observe_and_act g s reward terminate st).1.
Proof.
  apply (observe_preserves (fun st0 => wf st0 /\ history_inv st0)).
  - intros st0 x id. apply inv_memorize.
  - intros st0 r. apply inv_reward.
  - intros st0 t. apply inv_update.
  - apply inv_clear.
Qed.

Lemma observe_settings (g : rng) s (reward : option num) (terminate : bool) st :
  same_settings st (observe_and_act g s reward terminate st).1.
Proof.
  apply (observe_preserves (fun st0 => same_settings st st0)); try done.
  intros st0 t Hs. destruct (update_shape t st0) as (q & tq & tn & -> & _).
  done.
Qed.

Lemma same_settings_trans st1 st2 st3 :
  same_settings st1 st2 -> same_settings st2 st3 -> same_settings st1 st3.
Proof.
  unfold same_settings. intros (? & ? & ? & ? & ? & ? & ?) (? & ? & ? & ? & ? & ? & ?).
  repeat split; congruence.
Qed.

Lemma after_calls_inv (cs : list call) st :
  wf st -> history_inv st ->
  wf (after_calls cs st) /\ history_inv (after_calls cs st) /\
  same_settings st (after_calls cs st).
Proof.
  revert st. induction cs as [|c cs IH]; intros st Hwf Hh; [done|].
  cbn [after_calls foldl].
  destruct (observe_inv (call_rng c) (call_state c) (call_reward c) (call_terminate c) st)
    as [Hwf1 Hh1]; [done|].
  destruct (IH _ Hwf1 Hh1) as (Hwf2 & Hh2 & Hs2).
  split; [done|]. split; [done|].
  eapply same_settings_trans; [apply observe_settings|exact Hs2].
Qed.

Lemma init_history_inv (possible_actions : list action) (n_0 gamma : num)
    (base_name : string) :
  history_inv (init possible_actions n_0 gamma base_name).
Proof. unfold history_inv. cbn. repeat split; (lia || constructor). Qed.

(** X3: whatever sequence of [observe_and_act] calls a freshly constructed
    agent goes through (any states, rewards, flags and draws, calls that
    raise included), its two tables stay arrays of shape [11, 22, n] with
    all their cells, its three buffers keep capacity 2, and the actions, their
    number, [gamma], [n_0], the base name and both id mappings stay those the
    constructor set. *)
Theorem after_calls_well_formed (possible_actions : list action) (n_0 gamma : num)
    (base_name : string) (cs : list call) :
  let st := after_calls cs (init possible_actions n_0 gamma base_name) in
  wf st /\ same_settings (init possible_actions n_0 gamma base_name) st.
Proof.
  cbn zeta.
  destruct (after_calls_inv cs (init possible_actions n_0 gamma base_name))
    as (Hwf & _ & Hs); [apply init_wf|apply init_history_inv|done].
Qed.

(** X4: whatever sequence of [observe_and_act] calls a freshly constructed
    agent goes through, the recorded states and the recorded action ids stay
    paired (as many of the one as of the other), there are at most two pairs
    and at most two pending rewards, and every recorded id is the id of one of
    the agent's actions. *)
Theorem after_calls_history (possible_actions : list action) (n_0 gamma : num)
    (base_name : string) (cs : list call) :
  history_inv (after_calls cs (init possible_actions n_0 gamma base_name)).
Proof.
  destruct (after_calls_inv cs (init possible_actions n_0 gamma base_name))
    as (_ & Hh & _); [apply init_wf|apply init_history_inv|done].
Qed.

(** ** The window of two pairs *)

Lemma deque_append_one {A : Type} (q : deque A) (x y : A) :
  maxlen q = 2%nat -> items q = [x] -> deque_append q y = Deque [x; y] 2.
Proof. intros Hm Hi. unfold deque_append. by rewrite Hm, Hi. Qed.

Lemma deque_append_two {A : Type} (q : deque A) (w x y : A) :
  maxlen q = 2%nat -> items q = [w; x] -> deque_append q y = Deque [x; y] 2.
Proof. intros Hm Hi. unfold deque_append. by rewrite Hm, Hi. Qed.

Lemma deque_append_empty {A : Type} (q : deque A) (y : A) :
  maxlen q = 2%nat -> items q = [] -> deque_append q y = Deque [y] 2.
Proof. intros Hm Hi. unfold deque_append. by rewrite Hm, Hi. Qed.

(** X5: the history is a sliding window: on a well-formed agent that holds
    two recorded pairs, a call with no reward and no termination returns an
    action, drops the older pair, keeps the newer one in first place and puts
    the new state with the id of the returned action in second place; both
    tables and the pending rewards are untouched. *)
Theorem observe_window_slides (g : rng) s st (s0 s1 : Z * Z) (a0 a1 : Z) :
  wf st -> state_ok s -> (2 <= _n_actions st)%nat ->
  items (_past_states st) = [s0; s1] ->
  items (_past_actions st) = [a0; a1] ->
  exists (x : action) (id : Z),
    _action2id st !! x = Some id /\
    observe_and_act g s None false st =
      (set_past_actions (Deque [a1; id] 2) (set_past_states (Deque [s1; s] 2) st),
       Ok (Some x)).
Proof.
  intros Hwf Hs Hn Hps Hpa.
  destruct (take_action_ok g s true st Hwf Hs Hn) as (x & i & Ht & Hx).
  destruct (action2id_lookup st x i Hwf Hx) as [id Hid].
  exists x, id. split; [done|].
  rewrite (observe_plain_run g s st x id Ht Hid).
  destruct Hwf as [_ _ _ _ (Hma & Hms & _)].
  by rewrite (deque_append_two _ s0 s1 s Hms Hps), (deque_append_two _ a0 a1 id Hma Hpa).
Qed.

(** ** Whole calls of [observe_and_act] with a reward *)

Lemma observe_step_run (g : rng) s (r : num) st (x : action) (id : Z) :
  take_action g s true st = (st, Ok x) ->
  _action2id st !! x = Some id ->
  observe_and_act g s (Some r) false st =
    let st1 := set_past_actions (deque_append (_past_actions st) id)
                 (set_past_states (deque_append (_past_states st) s) st) in
    let u := _update false
               (set_past_returns (deque_append (_past_returns st1) r) st1) in
    (u.1, match u.2 with Ok _ => Ok (Some x) | Raise e => Raise e end).
Proof.
  intros Ht Hid. unfold observe_and_act. cbn [negb].
  unfold bind at 1. unfold bind at 1. rewrite Ht.
  unfold bind at 1. rewrite (memorize_run st s x id Hid).
  unfold ret at 1. unfold bind at 1. unfold bind at 1. unfold modify at 1.
  cbn zeta. by destruct (_update false _) as [u [[]|e]].
Qed.

Lemma table_ok_inj (n : nat) (xs : list num) :
  table_ok n (Array (NdArray [11; 22; n]%nat xs)) -> length xs = (11 * 22 * n)%nat.
Proof. by intros (xs' & [= <-] & Hlen). Qed.

(** X6: one learning step as the training loop triggers it.  On a
    well-formed agent with at least two actions, whose last recorded pair is
    [(s0, a0)] and which has no pending reward, [observe_and_act(s, reward=r)]
    returns an action [x], leaves the window [(s0, a0), (s, id of x)], and has
    updated the pair [(s0, a0)] alone, bootstrapping from the value of the pair
    it has just chosen: [N[s0,a0] += 1] and
    [Q[s0,a0] += (r + gamma * Q[s, id] - Q[s0,a0]) / N[s0,a0]]; the reward
    queue is empty again. *)
Theorem observe_reward_step (g : rng) s (r : num) st (s0 : Z * Z) (a0 : Z)
    (qs ns : list num) :
  wf st -> (2 <= _n_actions st)%nat ->
  _state_action_values st = Array (NdArray [11; 22; _n_actions st]%nat qs) ->
  _state_action_visits st = Array (NdArray [11; 22; _n_actions st]%nat ns) ->
  state_ok s -> state_ok s0 -> 0 <= a0 < Z.of_nat (_n_actions st) ->
  (items (_past_states st) = [s0] /\ items (_past_actions st) = [a0]) \/
  (exists (sx : Z * Z) (ax : Z),
      items (_past_states st) = [sx; s0] /\ items (_past_actions st) = [ax; a0]) ->
  items (_past_returns st) = [] ->
  exists (x : action) (id : Z) (n0 q0 q1 : num),
    _action2id st !! x = Some id /\
    ns !! flat (_n_actions st) s0 a0 = Some n0 /\
    qs !! flat (_n_actions st) s0 a0 = Some q0 /\
    qs !! flat (_n_actions st) s id = Some q1 /\
    observe_and_act g s (Some r) false st =
      (set_values
         (Array (NdArray [11; 22; _n_actions st]%nat
            (<[flat (_n_actions st) s0 a0 :=
                 add q0 (div (sub (add r (mul (_gamma st) q1)) q0) (add n0 one))]> qs)))
         (set_visits
            (Array (NdArray [11; 22; _n_actions st]%nat
               (<[flat (_n_actions st) s0 a0 := add n0 one]> ns)))
            (set_past_returns (Deque [] 2)
               (set_past_actions (Deque [a0; id] 2)
                  (set_past_states (Deque [s0; s] 2) st)))),
       Ok (Some x)).
Proof.
  intros Hwf Hn HQ HN Hs Hs0 Ha0 Hhist Hr.
  destruct (take_action_ok g s true st Hwf Hs Hn) as (x & i & Ht & Hx).
  destruct (action2id_lookup st x i Hwf Hx) as [id Hid].
  destruct (action2id_range st x id Hwf Hid) as [Hrange _].
  pose proof Hwf as [_ _ HQok HNok (Hma & Hms & Hmr)].
  rewrite HQ in HQok. rewrite HN in HNok.
  apply table_ok_inj in HQok, HNok.
  destruct (lookup_lt_is_Some_2 ns (flat (_n_actions st) s0 a0)) as [n0 Hn0];
    [rewrite HNok; by apply flat_lt|].
  destruct (lookup_lt_is_Some_2 qs (flat (_n_actions st) s0 a0)) as [q0 Hq0];
    [rewrite HQok; by apply flat_lt|].
  destruct (lookup_lt_is_Some_2 qs (flat (_n_actions st) s id)) as [q1 Hq1];
    [rewrite HQok; by apply flat_lt|].
  exists x, id, n0, q0, q1. do 4 (split; [done|]).
  rewrite (observe_step_run g s r st x id Ht Hid).
  assert (Hdq : deque_append (_past_states st) s = Deque [s0; s] 2 /\
                deque_append (_past_actions st) id = Deque [a0; id] 2).
  { destruct Hhist as [[Hps Hpa]|(sx & ax & Hps & Hpa)].
    - by rewrite (deque_append_one _ s0 s Hms Hps), (deque_append_one _ a0 id Hma Hpa).
    - by rewrite (deque_append_two _ sx s0 s Hms Hps),
        (deque_append_two _ ax a0 id Hma Hpa). }
  destruct Hdq as [-> ->]. fields.
  rewrite (deque_append_empty _ r Hmr Hr). cbn zeta.
  rewrite (update_nonterminal_run _ s0 a0 s id r [] _ _
             (flat (_n_actions st) s0 a0) (flat (_n_actions st) s0 a0)
             (flat (_n_actions st) s id) n0 q0 q1)
    by (done || by apply offset3_ok).
  cbn [fst snd]. by destruct st.
Qed.

(** X7: the closing call of an episode.  On a well-formed agent whose last
    recorded pair is [(s0, a0)] and which has no pending reward,
    [observe_and_act(s, reward=r, terminate=True)] returns [None] whatever
    the state [s] and the draws (a terminal state is neither recorded nor
    looked up), has updated the pair [(s0, a0)] alone with the target [r]:
    [N[s0,a0] += 1] and [Q[s0,a0] += (r - Q[s0,a0]) / N[s0,a0]], and leaves
    the three buffers empty. *)
Theorem observe_terminal_step (g : rng) s (r : num) st (s0 : Z * Z) (a0 : Z)
    (qs ns : list num) :
  wf st ->
  _state_action_values st = Array (NdArray [11; 22; _n_actions st]%nat qs) ->
  _state_action_visits st = Array (NdArray [11; 22; _n_actions st]%nat ns) ->
  state_ok s0 -> 0 <= a0 < Z.of_nat (_n_actions st) ->
  (items (_past_states st) = [s0] /\ items (_past_actions st) = [a0]) \/
  (exists (sx : Z * Z) (ax : Z),
      items (_past_states st) = [sx; s0] /\ items (_past_actions st) = [ax; a0]) ->
  items (_past_returns st) = [] ->
  exists n0 q0 : num,
    ns !! flat (_n_actions st) s0 a0 = Some n0 /\
    qs !! flat (_n_actions st) s0 a0 = Some q0 /\
    observe_and_act g s (Some r) true st =
      (set_values
         (Array (NdArray [11; 22; _n_actions st]%nat
            (<[flat (_n_actions st) s0 a0 := add q0 (div (sub r q0) (add n0 one))]> qs)))
         (set_visits
            (Array (NdArray [11; 22; _n_actions st]%nat
               (<[flat (_n_actions st) s0 a0 := add n0 one]> ns)))
            (set_past_returns (deque_new 2)
               (set_past_actions (deque_new 2)
                  (set_past_states (deque_new 2) st)))),
       Ok None).
Proof.
  intros Hwf HQ HN Hs0 Ha0 Hhist Hr.
  pose proof Hwf as [_ _ HQok HNok (Hma & Hms & Hmr)].
  rewrite HQ in HQok. rewrite HN in HNok.
  apply table_ok_inj in HQok, HNok.
  destruct (lookup_lt_is_Some_2 ns (flat (_n_actions st) s0 a0)) as [n0 Hn0];
    [rewrite HNok; by apply flat_lt|].
  destruct (lookup_lt_is_Some_2 qs (flat (_n_actions st) s0 a0)) as [q0 Hq0];
    [rewrite HQok; by apply flat_lt|].
  exists n0, q0. do 2 (split; [done|]).
  rewrite observe_terminate_run. cbn zeta.
  rewrite (deque_append_empty _ r Hmr Hr).
  destruct Hhist as [[Hps Hpa]|(sx & ax & Hps & Hpa)].
  - rewrite (update_terminal_one_run _ s0 a0 r [] _ _
               (flat (_n_actions st) s0 a0) (flat (_n_actions st) s0 a0) n0 q0)
      by (done || by apply offset3_ok).
    cbn [fst snd]. by destruct st.
  - rewrite (update_terminal_two_run _ sx ax s0 a0 r [] _ _
               (flat (_n_actions st) s0 a0) (flat (_n_actions st) s0 a0) n0 q0)
      by (done || by apply offset3_ok).
    cbn [fst snd]. by destruct st.
Qed.

(** ** Indices out of the table *)

Lemma getitem_out_of_range (n : nat) (xs : list num) (i j k : Z) :
  out_of_range 11 i \/ out_of_range 22 j \/ out_of_range n k ->
  table_getitem (Array (NdArray [11; 22; n]%nat xs)) i j k = Raise IndexError.
Proof.
  intros Hout. unfold table_getitem, ndarray_getitem, offset3. cbn [shape].
  destruct Hout as [Hi|[Hj|Hk]].
  - by rewrite (norm_index_out 11 i Hi).
  - rewrite (norm_index_out 22 j Hj). by destruct (norm_index 11 i).
  - rewrite (norm_index_out n k Hk).
    by destruct (norm_index 11 i), (norm_index 22 j).
Qed.

Lemma update_target_out_of_range_run (terminate : bool) st (s0 s1 : Z * Z) (a0 a1 : Z)
    (r : num) (rest ns : list num) :
  _state_action_visits st = Array (NdArray [11; 22; _n_actions st]%nat ns) ->
  items (_past_states st) = [s0; s1] ->
  items (_past_actions st) = [a0; a1] ->
  items (_past_returns st) = r :: rest ->
  (let target := if terminate then (s1, a1) else (s0, a0) in
   out_of_range 11 target.1.1 \/ out_of_range 22 target.1.2 \/
   out_of_range (_n_actions st) target.2) ->
  _update terminate st =
    (set_past_returns (Deque rest (maxlen (_past_returns st))) st, Raise IndexError).
Proof.
  intros HN Hps Hpa Hr Hout.
  unfold _update. run.
  unfold deque_len, deque_getitem, unpack2, deque_popleft. rewrite Hps, Hpa, Hr. cbn.
  rewrite andb_false_r. rewrite list_getitem_0, list_getitem_1. cbn.
  destruct s0 as [d0 p0], s1 as [d1 p1].
  destruct terminate; cbn in *; unfold visits_incr; run; rewrite HN;
    by rewrite getitem_out_of_range.
Qed.

(** X8: when the pair an update targets (the older of two pairs, or at
    termination the newer of two or the only one) lies outside the table,
    [_update] raises [IndexError] after it has popped the reward: the reward
    is lost, and neither table is written. *)
Theorem update_target_out_of_range (terminate : bool) st (s : Z * Z) (a : Z)
    (r : num) (rest ns : list num) :
  _state_action_visits st = Array (NdArray [11; 22; _n_actions st]%nat ns) ->
  items (_past_returns st) = r :: rest ->
  (terminate = true /\ items (_past_states st) = [s] /\
   items (_past_actions st) = [a]) \/
  (exists (s' : Z * Z) (a' : Z),
      terminate = true /\ items (_past_states st) = [s'; s] /\
      items (_past_actions st) = [a'; a]) \/
  (exists (s' : Z * Z) (a' : Z),
      terminate = false /\ items (_past_states st) = [s; s'] /\
      items (_past_actions st) = [a; a']) ->
  out_of_range 11 s.1 \/ out_of_range 22 s.2 \/ out_of_range (_n_actions st) a ->
  _update terminate st =
    (set_past_returns (Deque rest (maxlen (_past_returns st))) st, Raise IndexError).
Proof.
  intros HN Hr [(-> & Hps & Hpa)|[(s' & a' & -> & Hps & Hpa)|(s' & a' & -> & Hps & Hpa)]]
    Hout.
  - unfold _update. run.
    unfold deque_len, deque_getitem, deque_popleft. rewrite Hps, Hpa, Hr. cbn.
    rewrite !list_getitem_0. cbn. destruct s as [d p]. cbn in *.
    unfold visits_incr. run. rewrite HN. by rewrite getitem_out_of_range.
  - by apply (update_target_out_of_range_run true st s' s a' a r rest ns).
  - by apply (update_target_out_of_range_run false st s s' a a' r rest ns).
Qed.

(** X9: when the older pair is inside the table and the newer pair is not,
    the non-terminal [_update] raises [IndexError] half way: the reward is
    popped and the visit count [N[s,a]] is already incremented, while
    [Q[s,a]] is not updated. *)
Theorem update_successor_out_of_range st (s0 s1 : Z * Z) (a0 a1 : Z)
    (r : num) (rest qs ns : list num) :
  _state_action_values st = Array (NdArray [11; 22; _n_actions st]%nat qs) ->
  length qs = (11 * 22 * _n_actions st)%nat ->
  _state_action_visits st = Array (NdArray [11; 22; _n_actions st]%nat ns) ->
  length ns = (11 * 22 * _n_actions st)%nat ->
  items (_past_states st) = [s0; s1] ->
  items (_past_actions st) = [a0; a1] ->
  items (_past_returns st) = r :: rest ->
  state_ok s0 -> 0 <= a0 < Z.of_nat (_n_actions st) ->
  out_of_range 11 s1.1 \/ out_of_range 22 s1.2 \/ out_of_range (_n_actions st) a1 ->
  exists n0 : num,
    ns !! flat (_n_actions st) s0 a0 = Some n0 /\
    _update false st =
      (set_visits
         (Array (NdArray [11; 22; _n_actions st]%nat
            (<[flat (_n_actions st) s0 a0 := add n0 one]> ns)))
         (set_past_returns (Deque rest (maxlen (_past_returns st))) st),
       Raise IndexError).
Proof.
  intros HQ Hqs HN Hns Hps Hpa Hr Hs0 Ha0 Hout.
  destruct (table_getitem_ok (_n_actions st) ns s0 a0 Hs0 Ha0 Hns) as (n0 & Hn0 & Hgn).
  destruct (table_getitem_ok (_n_actions st) qs s0 a0 Hs0 Ha0 Hqs) as (q0 & Hq0 & Hgq).
  exists n0. split; [done|].
  unfold _update. run.
  unfold deque_len, deque_getitem, unpack2, deque_popleft. rewrite Hps, Hpa, Hr. cbn.
  rewrite list_getitem_0, list_getitem_1. cbn.
  destruct s0 as [d0 p0], s1 as [d1 p1]. cbn in *.
  unfold visits_incr, values_iadd, q_at, n_at. run.
  rewrite HN, Hgn.
  rewrite (setitem_array _ d0 p0 a0 (flat (_n_actions st) (d0, p0) a0) n0)
    by (done || by apply (offset3_ok _ ns (d0, p0))).
  cbn. rewrite HQ, Hgq. by rewrite getitem_out_of_range.
Qed.

(** ** What [take_action] reads *)

Lemma table_take_pair_inv (t : table) (i j : Z) (l : list num) :
  table_take t [i; j] = Ok l ->
  exists (a : ndarray) (u v : num),
    t = Array a /\ l = [u; v] /\
    list_getitem (data a) i = Ok u /\ list_getitem (data a) j = Ok v.
Proof.
  unfold table_take. destruct t as [a|?]; [|done]. cbn [ndarray_take].
  destruct (list_getitem (data a) i) as [u|] eqn:Hu; [|done].
  destruct (list_getitem (data a) j) as [v|] eqn:Hv; [|done].
  intros [= <-]. by exists a, u, v.
Qed.

Lemma list_getitem_nat {A : Type} (l : list A) (i : nat) (x : A) :
  list_getitem l (Z.of_nat i) = Ok x -> l !! i = Some x.
Proof.
  unfold list_getitem.
  destruct (norm_index_cases (length l) (Z.of_nat i)) as [(k & Hk & Hlt & _)|[-> _]];
    [|done].
  rewrite Hk. assert (k = i) as ->.
  { unfold norm_index in Hk.
    destruct (Z.leb_spec 0 (Z.of_nat i)); [|lia].
    destruct (Z.ltb_spec (Z.of_nat i) (Z.of_nat (length l))); cbn in Hk.
    - injection Hk as <-. lia.
    - destruct (Z.ltb_spec (Z.of_nat i) 0); [lia|].
      by rewrite andb_false_r in Hk. }
  by destruct (l !! i) as [y|]; [intros [= ->]|].
Qed.

(** X10: the greedy branch never chooses beyond the second action: whatever
    the agent, the state and the number of actions, an action returned by
    [take_action(state, explore=False)] is the action of id 0 or the action
    of id 1. *)
Theorem greedy_choice_among_first_two (g : rng) s st st' (x : action) :
  take_action g s false st = (st', Ok x) ->
  _possible_actions st !! 0%nat = Some x \/ _possible_actions st !! 1%nat = Some x.
Proof.
  unfold take_action, take_action_epsilon. run.
  destruct (table_take (_state_action_visits st) [s.1; s.2]) as [vs|]; [|done]. cbn.
  destruct (table_take (_state_action_values st) [s.1; s.2]) as [qs|] eqn:Hq; [|done].
  cbn. apply table_take_pair_inv in Hq as (qa & u & v & _ & -> & _ & _).
  destruct (np_argmax_pair u v) as (i & -> & Hi). cbn.
  destruct (list_getitem (_possible_actions st) (Z.of_nat i)) as [y|] eqn:Hy; [|done].
  intros [= _ ->]. apply list_getitem_nat in Hy.
  destruct i as [|[|i]]; [by left|by right|lia].
Qed.

Lemma take_pair_flat (xs : list num) (i j : Z) :
  0 <= i < Z.of_nat (length xs) -> 0 <= j < Z.of_nat (length xs) ->
  exists u v : num,
    xs !! Z.to_nat i = Some u /\ xs !! Z.to_nat j = Some v /\
    forall sh : list nat, table_take (Array (NdArray sh xs)) [i; j] = Ok [u; v].
Proof.
  intros Hi Hj.
  destruct (lookup_lt_is_Some_2 xs (Z.to_nat i)) as [u Hu]; [lia|].
  destruct (lookup_lt_is_Some_2 xs (Z.to_nat j)) as [v Hv]; [lia|].
  exists u, v. split; [done|]. split; [done|]. intros sh.
  unfold table_take. cbn [ndarray_take data]. unfold list_getitem.
  rewrite !norm_index_in by lia. by rewrite Hu, Hv.
Qed.

(** What [take_action] returns is a function of the settings and of the
    four cells its two [take] calls read. *)
Lemma take_action_flat (g : rng) s (explore : bool) st (qs ns : list num)
    (shq shn : list nat) (u v u' v' : num) :
  _state_action_values st = Array (NdArray shq qs) ->
  _state_action_visits st = Array (NdArray shn ns) ->
  0 <= s.1 -> 0 <= s.2 ->
  ns !! Z.to_nat s.1 = Some u -> ns !! Z.to_nat s.2 = Some v ->
  qs !! Z.to_nat s.1 = Some u' -> qs !! Z.to_nat s.2 = Some v' ->
  (take_action g s explore st).2 =
    match
      (if explore && ltb (uniform g) (div (_n_0 st) (add (_n_0 st) (add u v)))
       then random_choice g (_n_actions st)
       else np_argmax [u'; v'])
    with
    | Ok id => list_getitem (_possible_actions st) id
    | Raise e => Raise e
    end.
Proof.
  intros HQ HN H1 H2 Hu Hv Hu' Hv'.
  assert (Hlt : forall (xs : list num) (i : Z) (y : num), 0 <= i ->
            xs !! Z.to_nat i = Some y -> 0 <= i < Z.of_nat (length xs)).
  { intros xs i y Hi Hy. apply lookup_lt_Some in Hy. lia. }
  destruct (take_pair_flat ns s.1 s.2) as (u0 & v0 & Hu0 & Hv0 & Htn);
    [by eapply Hlt|by eapply Hlt|].
  destruct (take_pair_flat qs s.1 s.2) as (u1 & v1 & Hu1 & Hv1 & Htq);
    [by eapply Hlt|by eapply Hlt|].
  assert (u0 = u) as -> by congruence. assert (v0 = v) as -> by congruence.
  assert (u1 = u') as -> by congruence. assert (v1 = v') as -> by congruence.
  unfold take_action, take_action_epsilon. run. rewrite HN, Htn. cbn.
  destruct (explore && ltb (uniform g) (div (_n_0 st) (add (_n_0 st) (add u v)))).
  - by destruct (random_choice g (_n_actions st)).
  - rewrite HQ, Htq. cbn. by destruct (np_argmax [u'; v']).
Qed.

(** ** Updates never reach the cells [take_action] reads *)

Lemma update_no_reward (terminate : bool) st :
  items (_past_returns st) = [] -> (_update terminate st).1 = st.
Proof.
  intros Hr. destruct (update_cases terminate st) as [[e ->]|(r & rest & Hr' & _)];
    [done|congruence].
Qed.

Lemma flat_ge_22 (n : nat) s a :
  dealt s -> (1 <= n)%nat -> 0 <= a -> (22 <= flat n s a)%nat.
Proof.
  intros [[[? ?] [? ?]] ?] Hn Ha. unfold flat.
  assert (1 <= Z.to_nat s.1)%nat by lia. nia.
Qed.

Lemma update_low_cells (terminate : bool) st :
  wf st -> (1 <= _n_actions st)%nat -> history_inv st ->
  Forall dealt (items (_past_states st)) ->
  low_cells (_state_action_values (_update terminate st).1)
    = low_cells (_state_action_values st) /\
  low_cells (_state_action_visits (_update terminate st).1)
    = low_cells (_state_action_visits st).
Proof.
  intros Hwf Hn (Hlen & Hle & _ & Hids) Hdealt.
  destruct (items (_past_returns st)) as [|r rest] eqn:Hr;
    [by rewrite update_no_reward|].
  pose proof Hwf as [_ _ (qs & HQ & Hqs) (ns & HN & Hns) _].
  assert (Hrun : forall s a, dealt s -> 0 <= a < Z.of_nat (_n_actions st) ->
            exists n0 q0, ns !! flat (_n_actions st) s a = Some n0 /\
              qs !! flat (_n_actions st) s a = Some q0 /\
              offset3 (NdArray [11; 22; _n_actions st]%nat ns) s.1 s.2 a
                = Ok (flat (_n_actions st) s a) /\
              offset3 (NdArray [11; 22; _n_actions st]%nat qs) s.1 s.2 a
                = Ok (flat (_n_actions st) s a) /\
              (22 <= flat (_n_actions st) s a)%nat).
  { intros s a Hs Ha.
    destruct (table_getitem_ok (_n_actions st) ns s a (proj1 Hs) Ha Hns) as (n0 & Hn0 & _).
    destruct (table_getitem_ok (_n_actions st) qs s a (proj1 Hs) Ha Hqs) as (q0 & Hq0 & _).
    exists n0, q0. do 2 (split; [done|]).
    split; [by apply offset3_ok; [apply Hs|]|].
    split; [by apply offset3_ok; [apply Hs|]|].
    apply flat_ge_22; [done|done|lia]. }
  destruct (items (_past_states st)) as [|s0 [|s1 [|? ?]]] eqn:Hps;
    destruct (items (_past_actions st)) as [|a0 [|a1 [|? ?]]] eqn:Hpa;
    cbn in Hlen, Hle; try lia.
  - rewrite update_short_history; [done|]. left. by rewrite Hps.
  - apply Forall_cons in Hdealt as [Hs0 _]. apply Forall_cons in Hids as [Ha0 _].
    destruct terminate.
    + destruct (Hrun s0 a0 Hs0 Ha0) as (n0 & q0 & Hn0 & Hq0 & Hon & Hoq & Hge).
      rewrite (update_terminal_one_run st s0 a0 r rest _ _ _ _ n0 q0 HQ HN Hps Hpa Hr
                 Hon Hn0 Hoq Hq0).
      cbn [fst]. fields. rewrite HQ, HN. unfold low_cells. cbn [cells data shape].
      by rewrite !take_insert_ge by done.
    + rewrite update_short_history; [done|]. right. split; [done|]. by rewrite Hps.
  - apply Forall_cons in Hdealt as [Hs0 Hdealt]. apply Forall_cons in Hdealt as [Hs1 _].
    apply Forall_cons in Hids as [Ha0 Hids]. apply Forall_cons in Hids as [Ha1 _].
    destruct (Hrun s0 a0 Hs0 Ha0) as (n0 & q0 & Hn0 & Hq0 & Hon & Hoq & Hge).
    destruct (Hrun s1 a1 Hs1 Ha1) as (n1 & q1 & Hn1 & Hq1 & Hon1 & Hoq1 & Hge1).
    destruct terminate.
    + rewrite (update_terminal_two_run st s0 a0 s1 a1 r rest _ _ _ _ n1 q1 HQ HN Hps Hpa
                 Hr Hon1 Hn1 Hoq1 Hq1).
      cbn [fst]. fields. rewrite HQ, HN. unfold low_cells. cbn [cells data shape].
      by rewrite !take_insert_ge by done.
    + rewrite (update_nonterminal_run st s0 a0 s1 a1 r rest _ _ _ _ _ n0 q0 q1 HQ HN
                 Hps Hpa Hr Hon Hn0 Hoq Hq0 Hoq1 Hq1).
      cbn [fst]. fields. rewrite HQ, HN. unfold low_cells. cbn [cells data shape].
      by rewrite !take_insert_ge by done.
Qed.

Lemma observe_low_cells (g : rng) s (reward : option num) (terminate : bool)
    (lq ln : list num) st :
  dealt s ->
  (wf st /\ history_inv st) /\ Forall dealt (items (_past_states st)) /\
  (1 <= _n_actions st)%nat /\
  low_cells (_state_action_values st) = lq /\
  low_cells (_state_action_visits st) = ln ->
  let st' := (observe_and_act g s reward terminate st).1 in
  (wf st' /\ history_inv st') /\ Forall dealt (items (_past_states st')) /\
  (1 <= _n_actions st')%nat /\
  low_cells (_state_action_values st') = lq /\
  low_cells (_state_action_visits st') = ln.
Proof.
  intros Hs. cbn zeta.
  apply (observe_preserves (fun st0 =>
    (wf st0 /\ history_inv st0) /\ Forall dealt (items (_past_states st0)) /\
    (1 <= _n_actions st0)%nat /\
    low_cells (_state_action_values st0) = lq /\
    low_cells (_state_action_visits st0) = ln)).
  - intros st0 x id (Hinv & Hd & Hn & HQ & HN) Hid.
    split; [by eapply inv_memorize|]. fields.
    split; [by apply deque_append_Forall|done].
  - intros st0 r (Hinv & Hd & Hn & HQ & HN). split; [by apply inv_reward|done].
  - intros st0 t (Hinv & Hd & Hn & HQ & HN). split; [by apply inv_update|].
    destruct Hinv as [Hwf Hh].
    destruct (update_low_cells t st0 Hwf Hn Hh Hd) as [-> ->].
    rewrite update_n_actions.
    destruct (update_shape t st0) as (q & tq & tn & -> & _). by fields.
  - intros st0 (Hinv & Hd & Hn & HQ & HN). split; [by apply inv_clear|].
    cbn. split; [constructor|done].
Qed.

Lemma after_calls_low_cells (cs : list call) (lq ln : list num) st :
  Forall (fun c => dealt (call_state c)) cs ->
  (wf st /\ history_inv st) /\ Forall dealt (items (_past_states st)) /\
  (1 <= _n_actions st)%nat /\
  low_cells (_state_action_values st) = lq /\
  low_cells (_state_action_visits st) = ln ->
  low_cells (_state_action_values (after_calls cs st)) = lq /\
  low_cells (_state_action_visits (after_calls cs st)) = ln.
Proof.
  revert st. induction cs as [|c cs IH]; intros st Hcs HP.
  - by destruct HP as (_ & _ & _ & HQ & HN).
  - apply Forall_cons in Hcs as [Hc Hcs]. cbn [after_calls foldl].
    apply IH; [done|].
    by apply (observe_low_cells (call_rng c) (call_state c) (call_reward c)
                (call_terminate c) lq ln st Hc).
Qed.

(** X11: training never changes what [take_action] returns.  Whatever
    sequence of [observe_and_act] calls a freshly constructed agent (with at
    least one action) goes through, as long as every state passed has a
    dealer card of at least 1 as in the game, the outcome of [take_action] on
    any state of the table, for the same draws, is the outcome on the fresh
    agent: the updates write cells at flat offsets of 22 or more, while
    [take_action] reads the cells at the flat offsets [dealer_card] and
    [player_sum], below 22. *)
Theorem training_never_changes_choice (possible_actions : list action)
    (n_0 gamma : num) (base_name : string) (cs : list call)
    (g : rng) s (explore : bool) :
  (1 <= length possible_actions)%nat ->
  Forall (fun c => dealt (call_state c)) cs ->
  state_ok s ->
  (take_action g s explore
     (after_calls cs (init possible_actions n_0 gamma base_name))).2 =
  (take_action g s explore (init possible_actions n_0 gamma base_name)).2.
Proof.
  intros Hn Hcs Hs.
  set (st0 := init possible_actions n_0 gamma base_name).
  destruct (after_calls_inv cs st0) as (Hwf & _ & Hset);
    [apply init_wf|apply init_history_inv|].
  destruct (after_calls_low_cells cs (low_cells (_state_action_values st0))
              (low_cells (_state_action_visits st0)) st0 Hcs) as [HlQ HlN].
  { split; [split; [apply init_wf|apply init_history_inv]|].
    split; [constructor|]. by split. }
  set (st1 := after_calls cs st0) in *.
  destruct Hset as (Hpa & Hna & _ & Hn0 & _).
  pose proof (init_wf possible_actions n_0 gamma base_name) as Hwf0. fold st0 in Hwf0.
  destruct Hwf0 as [_ _ (qs0 & HQ0 & Hqs0) (ns0 & HN0 & Hns0) _].
  destruct Hwf as [_ _ (qs1 & HQ1 & Hqs1) (ns1 & HN1 & Hns1) _].
  rewrite HQ0, HQ1 in HlQ. rewrite HN0, HN1 in HlN.
  unfold low_cells in HlQ, HlN. cbn [cells data] in HlQ, HlN.
  assert (Hna0 : _n_actions st0 = length possible_actions) by done.
  destruct Hs as [[Hd1 Hd2] [Hp1 Hp2]].
  assert (Hlow : forall (xs ys : list num) (i : Z), 0 <= i <= 21 ->
            take 22 xs = take 22 ys -> xs !! Z.to_nat i = ys !! Z.to_nat i).
  { intros xs ys i Hi Heq.
    rewrite <- (lookup_take_lt xs 22 (Z.to_nat i)) by lia.
    rewrite <- (lookup_take_lt ys 22 (Z.to_nat i)) by lia. by rewrite Heq. }
  destruct (lookup_lt_is_Some_2 ns0 (Z.to_nat s.1)) as [u Hu]; [lia|].
  destruct (lookup_lt_is_Some_2 ns0 (Z.to_nat s.2)) as [v Hv]; [lia|].
  destruct (lookup_lt_is_Some_2 qs0 (Z.to_nat s.1)) as [u' Hu']; [lia|].
  destruct (lookup_lt_is_Some_2 qs0 (Z.to_nat s.2)) as [v' Hv']; [lia|].
  rewrite (take_action_flat g s explore st0 qs0 ns0
             [11; 22; _n_actions st0]%nat [11; 22; _n_actions st0]%nat u v u' v')
    by done.
  rewrite (take_action_flat g s explore st1 qs1 ns1
             [11; 22; _n_actions st1]%nat [11; 22; _n_actions st1]%nat u v u' v');
    try done; try (rewrite (Hlow ns1 ns0) by (done || lia); done);
    try (rewrite (Hlow qs1 qs0) by (done || lia); done).
  by rewrite Hpa, Hna, Hn0.
Qed.

(** ** A state beyond the table *)

Lemma take_action_ok_flat (g : rng) s (explore : bool) st :
  wf st -> (2 <= _n_actions st)%nat ->
  0 <= s.1 < 242 * Z.of_nat (_n_actions st) ->
  0 <= s.2 < 242 * Z.of_nat (_n_actions st) ->
  exists (x : action) (i : nat),
    take_action g s explore st = (st, Ok x) /\ _possible_actions st !! i = Some x.
Proof.
  intros [Hn _ (qs & HQ & Hqs) (ns & HN & Hns) _] Hge H1 H2.
  destruct (take_pair_flat ns s.1 s.2) as (u & v & Hu & Hv & _); [lia|lia|].
  destruct (take_pair_flat qs s.1 s.2) as (u' & v' & Hu' & Hv' & _); [lia|lia|].
  pose proof (take_action_readonly g s explore st) as Hro.
  pose proof (take_action_flat g s explore st qs ns _ _ u v u' v' HQ HN
                (proj1 H1) (proj1 H2) Hu Hv Hu' Hv') as Hres.
  destruct (take_action g s explore st) as [st1 res]. cbn in Hro, Hres. subst st1 res.
  destruct (explore && ltb (uniform g) (div (_n_0 st) (add (_n_0 st) (add u v)))).
  - unfold random_choice. destruct (Nat.eqb_spec (_n_actions st) 0); [lia|].
    destruct (list_getitem_lt (_possible_actions st) (randbelow g mod _n_actions st))
      as (x & Hx & ->).
    { rewrite <- Hn. apply Nat.mod_upper_bound. lia. }
    by eauto.
  - destruct (np_argmax_pair u' v') as (i & -> & Hi).
    destruct (list_getitem_lt (_possible_actions st) i) as (x & Hx & ->); [lia|].
    by eauto.
Qed.

(** X12: a state beyond the table is not rejected when it is passed.  On a
    well-formed agent with at least two actions and empty buffers,
    [observe_and_act] with a state whose dealer card or player sum exceeds the
    table (but lies within the flattened table) returns an action and records
    the state; the [IndexError] comes one call later, from the update of that
    pair, which pops and loses the reward of that call and writes no table. *)
Theorem state_beyond_table_fails_late (g g' : rng) s s' (r : num) st :
  wf st -> (2 <= _n_actions st)%nat ->
  history_cleared st ->
  0 <= s.1 < 242 * Z.of_nat (_n_actions st) ->
  0 <= s.2 < 242 * Z.of_nat (_n_actions st) ->
  out_of_range 11 s.1 \/ out_of_range 22 s.2 ->
  state_ok s' ->
  exists (x : action) (st1 : agent),
    observe_and_act g s None false st = (st1, Ok (Some x)) /\
    items (_past_states st1) = [s] /\
    let out := observe_and_act g' s' (Some r) false st1 in
    out.2 = Raise IndexError /\
    items (_past_returns out.1) = [] /\
    _state_action_values out.1 = _state_action_values st /\
    _state_action_visits out.1 = _state_action_visits st.
Proof.
  intros Hwf Hn (Hca & Hcs & Hcr) H1 H2 Hout Hs'.
  destruct (take_action_ok_flat g s true st Hwf Hn H1 H2) as (x & i & Ht & Hx).
  destruct (action2id_lookup st x i Hwf Hx) as [id Hid].
  exists x. eexists. split; [by apply (observe_plain_run g s st x id)|].
  rewrite Hca, Hcs. split; [done|].
  set (st1 := set_past_actions _ _).
  assert (Hwf1 : wf st1).
  { destruct Hwf as [? ? ? ? (? & ? & ?)]. subst st1. rewrite Hca, Hcs in *.
    by destruct st. }
  assert (Hn1 : _n_actions st1 = _n_actions st) by done.
  destruct (take_action_ok g' s' true st1 Hwf1 Hs') as (x' & i' & Ht' & Hx'); [lia|].
  destruct (action2id_lookup st1 x' i' Hwf1 Hx') as [id' Hid'].
  cbn zeta. rewrite (observe_step_run g' s' r st1 x' id' Ht' Hid').
  subst st1. fields. rewrite Hcr. cbn zeta.
  destruct Hwf as [_ _ _ (ns & HN & _) _].
  erewrite (update_target_out_of_range_run false _ s s' id id' r [] ns);
    [done|done|done|done|done|].
  cbn. destruct Hout as [?|?]; [by left|by right; left].
Qed.

(** ** Saving in the middle of an episode *)

#[local] Arguments table_tolist : simpl never.
#[local] Arguments table_asarray : simpl never.

Lemma save_run (output_dir : string) (iteration : option Z)
    (fs : gmap (string * option Z * string) file) st (n : nat) :
  table_ok n (_state_action_values st) ->
  table_ok n (_state_action_visits st) ->
  (0 < n)%nat ->
  (save output_dir iteration (st, fs)).1.1 =
    set_past_returns (deque_new 2)
      (set_past_states (deque_new 2) (set_past_actions (deque_new 2) st)) /\
  (save output_dir iteration (st, fs)).2 = Ok tt.
Proof.
  intros HQ HN Hn.
  destruct (table_roundtrip n _ HQ) as (lq & Hlq & Haq).
  destruct (table_roundtrip n _ HN) as (ln & Hln & Han).
  pose proof (plot_slice_ok n _ HQ Hn) as Hpq.
  pose proof (plot_slice_ok n _ HN Hn) as Hpn.
  unfold save, _save_plot, _save_local, _clear_cache.
  unfold bind, get, lift, ret, modify, on_fst. cbn.
  rewrite Hlq. cbn. rewrite Hln. cbn. rewrite Haq. cbn. rewrite Han. cbn.
  rewrite Hpq, Hpn. by destruct st.
Qed.

Lemma reward_call_without_history (g : rng) s (r : num) (terminate : bool) st :
  wf st -> items (_past_states st) = [] -> items (_past_actions st) = [] ->
  (observe_and_act g s (Some r) terminate st).2 = Raise IndexError.
Proof.
  intros Hwf Hs Ha. destruct terminate.
  - rewrite observe_terminate_run. cbn zeta.
    rewrite update_short_history; [done|]. left. cbn. by rewrite Hs.
  - unfold observe_and_act. cbn [negb].
    unfold bind at 1. unfold bind at 1.
    destruct (take_action_cases g s true st Hwf) as [(x & i & -> & Hi)| ->]; [|done].
    destruct (action2id_lookup st x i Hwf Hi) as [id Hid].
    unfold bind at 1. rewrite (memorize_run st s x id Hid).
    unfold ret at 1. unfold bind at 1. unfold bind at 1. unfold modify at 1.
    rewrite update_short_history; [done|]. right. split; [done|].
    fields. cbn [deque_append items]. rewrite Hs. cbn [app length].
    destruct (maxlen (_past_states st) <? 1)%nat; cbn; lia.
Qed.

(** X13: [save] ends the episode under way.  On a well-formed agent with at
    least one action [save] completes and empties the history, whatever it
    held; the next [observe_and_act] that passes a reward, terminal or not,
    then raises [IndexError], for the pair that reward belongs to is gone. *)
Theorem save_drops_the_episode (output_dir : string) (iteration : option Z)
    (fs : gmap (string * option Z * string) file) (g : rng) s (r : num)
    (terminate : bool) st :
  wf st -> (1 <= _n_actions st)%nat ->
  let saved := save output_dir iteration (st, fs) in
  saved.2 = Ok tt /\
  history_cleared saved.1.1 /\
  (observe_and_act g s (Some r) terminate saved.1.1).2 = Raise IndexError.
Proof.
  intros Hwf Hn. cbn zeta.
  pose proof Hwf as [? ? HQ HN ?].
  destruct (save_run output_dir iteration fs st (_n_actions st) HQ HN) as [Hst Hres];
    [lia|].
  split; [done|]. rewrite Hst. split; [done|].
  apply reward_call_without_history; [|done|done]. by destruct st.
Qed.

(** ** A reward left pending *)

(** X14: a reward left in the queue by a call that raised is the one the
    next update uses.  On a well-formed agent with at least two actions whose
    last recorded pair is [(s0, a0)] and whose queue holds one reward
    [r_old], [observe_and_act(s, reward=r_new)] updates [(s0, a0)] with
    [r_old]: [Q[s0,a0] += (r_old + gamma * Q[s, id] - Q[s0,a0]) / N[s0,a0]],
    and leaves [r_new] pending in its turn. *)
Theorem pending_reward_is_used_first (g : rng) s (r_old r_new : num) st
    (s0 : Z * Z) (a0 : Z) (qs ns : list num) :
  wf st -> (2 <= _n_actions st)%nat ->
  _state_action_values st = Array (NdArray [11; 22; _n_actions st]%nat qs) ->
  _state_action_visits st = Array (NdArray [11; 22; _n_actions st]%nat ns) ->
  state_ok s -> state_ok s0 -> 0 <= a0 < Z.of_nat (_n_actions st) ->
  (items (_past_states st) = [s0] /\ items (_past_actions st) = [a0]) \/
  (exists (sx : Z * Z) (ax : Z),
      items (_past_states st) = [sx; s0] /\ items (_past_actions st) = [ax; a0]) ->
  items (_past_returns st) = [r_old] ->
  exists (x : action) (id : Z) (n0 q0 q1 : num),
    _action2id st !! x = Some id /\
    ns !! flat (_n_actions st) s0 a0 = Some n0 /\
    qs !! flat (_n_actions st) s0 a0 = Some q0 /\
    qs !! flat (_n_actions st) s id = Some q1 /\
    observe_and_act g s (Some r_new) false st =
      (set_values
         (Array (NdArray [11; 22; _n_actions st]%nat
            (<[flat (_n_actions st) s0 a0 :=
                 add q0 (div (sub (add r_old (mul (_gamma st) q1)) q0) (add n0 one))]>
               qs)))
         (set_visits
            (Array (NdArray [11; 22; _n_actions st]%nat
               (<[flat (_n_actions st) s0 a0 := add n0 one]> ns)))
            (set_past_returns (Deque [r_new] 2)
               (set_past_actions (Deque [a0; id] 2)
                  (set_past_states (Deque [s0; s] 2) st)))),
       Ok (Some x)).
Proof.
  intros Hwf Hn HQ HN Hs Hs0 Ha0 Hhist Hr.
  destruct (take_action_ok g s true st Hwf Hs Hn) as (x & i & Ht & Hx).
  destruct (action2id_lookup st x i Hwf Hx) as [id Hid].
  destruct (action2id_range st x id Hwf Hid) as [Hrange _].
  pose proof Hwf as [_ _ HQok HNok (Hma & Hms & Hmr)].
  rewrite HQ in HQok. rewrite HN in HNok.
  apply table_ok_inj in HQok, HNok.
  destruct (lookup_lt_is_Some_2 ns (flat (_n_actions st) s0 a0)) as [n0 Hn0];
    [rewrite HNok; by apply flat_lt|].
  destruct (lookup_lt_is_Some_2 qs (flat (_n_actions st) s0 a0)) as [q0 Hq0];
    [rewrite HQok; by apply flat_lt|].
  destruct (lookup_lt_is_Some_2 qs (flat (_n_actions st) s id)) as [q1 Hq1];
    [rewrite HQok; by apply flat_lt|].
  exists x, id, n0, q0, q1. do 4 (split; [done|]).
  rewrite (observe_step_run g s r_new st x id Ht Hid).
  assert (Hdq : deque_append (_past_states st) s = Deque [s0; s] 2 /\
                deque_append (_past_actions st) id = Deque [a0; id] 2).
  { destruct Hhist as [[Hps Hpa]|(sx & ax & Hps & Hpa)].
    - by rewrite (deque_append_one _ s0 s Hms Hps), (deque_append_one _ a0 id Hma Hpa).
    - by rewrite (deque_append_two _ sx s0 s Hms Hps),
        (deque_append_two _ ax a0 id Hma Hpa). }
  destruct Hdq as [-> ->]. fields.
  rewrite (deque_append_one _ r_old r_new Hmr Hr). cbn zeta.
  rewrite (update_nonterminal_run _ s0 a0 s id r_old [r_new] _ _
             (flat (_n_actions st) s0 a0) (flat (_n_actions st) s0 a0)
             (flat (_n_actions st) s id) n0 q0 q1)
    by (done || by apply offset3_ok).
  cbn [fst snd]. by destruct st.
Qed.

(** ** What a call does to the visit counts *)

Lemma visits_incr_effect st (i j k : Z) :
  (exists e, visits_incr i j k st = (st, Raise e)) \/
  (exists (o : nat) (old : num) (t : table),
      cells (_state_action_visits st) !! o = Some old /\
      cells t = <[o := add old one]> (cells (_state_action_visits st)) /\
      visits_incr i j k st = (set_visits t st, Ok tt)).
Proof.
  unfold visits_incr. run.
  unfold table_getitem, ndarray_getitem, table_setitem, ndarray_setitem.
  destruct (_state_action_visits st) as [a|l] eqn:HN; [|left; by eauto].
  destruct (offset3 a i j k) as [o|e]; [|left; by eauto].
  destruct (data a !! o) as [old|] eqn:Hold; [|left; by eauto].
  pose proof (lookup_lt_Some _ _ _ Hold) as Hlt.
  destruct (Nat.ltb_spec o (length (data a))); [|lia]. cbn.
  right. exists o, old. eexists. split; [exact Hold|]. split; [|reflexivity]. done.
Qed.

Lemma step_counts st (i j k : Z) (rhs : M agent num) :
  (forall st0, (rhs st0).1 = st0) ->
  let res := (let! _ := visits_incr i j k in values_iadd i j k rhs) st in
  cells (_state_action_visits res.1) = cells (_state_action_visits st) \/
  exists (o : nat) (old : num),
    cells (_state_action_visits st) !! o = Some old /\
    cells (_state_action_visits res.1)
      = <[o := add old one]> (cells (_state_action_visits st)).
Proof.
  intros Hro. cbn zeta. unfold bind.
  destruct (visits_incr_effect st i j k) as [[e ->]|(o & old & t & Hold & Ht & ->)];
    [by left|].
  right. exists o, old. split; [done|].
  by destruct (values_iadd_cases (set_visits t st) i j k rhs Hro)
    as [(y & t' & _ & ->)|[e ->]].
Qed.

(** A run of [_update] leaves the visit counts, or adds one to one of them. *)
Lemma update_counts (terminate : bool) st :
  cells (_state_action_visits (_update terminate st).1)
    = cells (_state_action_visits st) \/
  exists (o : nat) (old : num),
    cells (_state_action_visits st) !! o = Some old /\
    cells (_state_action_visits (_update terminate st).1)
      = <[o := add old one]> (cells (_state_action_visits st)).
Proof.
  remember (_update terminate st) as res eqn:Hres.
  unfold _update in Hres. unfold bind at 1 in Hres. unfold get at 1 in Hres.
  cbn beta iota in Hres. unfold bind at 1 in Hres.
  match type of Hres with
  | context [match ?sel st with _ => _ end] => set (select := sel) in Hres
  end.
  assert (Hsel : (select st).1 = st).
  { subst select. run.
    destruct (terminate && (deque_len (_past_states st) =? 1)%nat).
    - destruct (deque_getitem (_past_states st) 0); [|done].
      by destruct (deque_getitem (_past_actions st) 0).
    - destruct (deque_getitem (_past_states st) 0); [|done].
      destruct (deque_getitem (_past_states st) 1); [|done].
      by destruct (unpack2 (_past_actions st)) as [[? ?]|]. }
  destruct (select st) as [st1 [[[older [d1 p1]] a1]|e]]; cbn in Hsel; subst st1;
    [|left; by subst res].
  unfold bind at 1 in Hres. unfold lift at 1 in Hres. unfold deque_popleft in Hres.
  destruct (items (_past_returns st)) as [|r rest] eqn:Hr; [left; by subst res|].
  cbn beta iota in Hres. unfold bind at 1 in Hres. unfold modify at 1 in Hres.
  cbn beta iota in Hres. subst res.
  destruct terminate; cbn [negb].
  - exact (step_counts
             (set_past_returns (Deque rest (maxlen (_past_returns st))) st) d1 p1 a1 _
             (fun st0 => rhs_terminal_readonly r d1 p1 a1 st0)).
  - destruct older as [[[d p] a]|]; [|by left].
    exact (step_counts
             (set_past_returns (Deque rest (maxlen (_past_returns st))) st) d p a _
             (fun st0 => rhs_nonterminal_readonly (_gamma st) r d p a d1 p1 a1 st0)).
Qed.

(** So does a call of [observe_and_act], which runs [_update] at most
    once. *)
Lemma observe_counts (g : rng) s (reward : option num) (terminate : bool) st :
  cells (_state_action_visits (observe_and_act g s reward terminate st).1)
    = cells (_state_action_visits st) \/
  exists (o : nat) (old : num),
    cells (_state_action_visits st) !! o = Some old /\
    cells (_state_action_visits (observe_and_act g s reward terminate st).1)
      = <[o := add old one]> (cells (_state_action_visits st)).
Proof.
  destruct terminate.
  - rewrite observe_terminate_run. destruct reward as [r|]; [|by left].
    cbn zeta.
    pose proof (update_counts true
                  (set_past_returns (deque_append (_past_returns st) r) st)) as Hu.
    by destruct (_update true _) as [u [[]|e]].
  - remember (observe_and_act g s reward false st) as out eqn:Hout.
    unfold observe_and_act in Hout. cbn [negb] in Hout.
    unfold bind at 1 in Hout. unfold bind at 1 in Hout.
    pose proof (take_action_readonly g s true st) as Hro.
    destruct (take_action g s true st) as [st1 [x|e]]; cbn in Hro; subst st1;
      [|left; by subst out].
    unfold bind at 1 in Hout. unfold _memorize in Hout.
    unfold bind at 1, get at 1 in Hout. cbn beta iota in Hout.
    unfold bind at 1, lift at 1 in Hout.
    destruct (_action2id st !! x) as [id|] eqn:Hid; [|left; by subst out].
    cbn beta iota in Hout. unfold bind at 1, modify at 1 2 in Hout.
    cbn beta iota in Hout. unfold ret at 1 in Hout.
    destruct reward as [r|]; [|left; by subst out].
    unfold bind at 1 in Hout. unfold bind at 1 in Hout. unfold modify at 1 in Hout.
    match type of Hout with
    | context [_update false ?st2] => pose proof (update_counts false st2) as Hu
    end.
    destruct (_update false _) as [u [[]|e]]; subst out; exact Hu.
Qed.

End AgentExtras.

(** * The update rule and the action choice in binary32 *)

Import F32 Easy21.

Lemma getitem_after_write (n : nat) (xs : list num) (s : Z * Z) (a : Z) (x : num) :
  state_ok s -> 0 <= a < Z.of_nat n -> length xs = (11 * 22 * n)%nat ->
  table_getitem (Array (NdArray [11; 22; n]%nat (<[flat n s a := x]> xs))) s.1 s.2 a
    = Ok x.
Proof.
  intros Hs Ha Hlen.
  apply (getitem_array _ s.1 s.2 a (flat n s a)).
  - by apply offset3_ok.
  - cbn [data]. apply list_lookup_insert_eq.
    pose proof (flat_lt n s a Hs Ha). lia.
Qed.

(** C3: with two recorded pairs [(s, a)] (older) and [(s', a')] (newer) and
    a pending reward [r], the non-terminal [_update] completes, pops [r], and
    does exactly [N[s,a] += 1] then
    [Q[s,a] += (r + gamma * Q[s',a'] - Q[s,a]) / N[s,a]], nothing else.  From
    all-zero tables with [gamma = 1] and [r = 1] this gives [N[s,a] = 1] and
    [Q[s,a] = 1.0]; from [N[s,a] = 1], [Q[s,a] = 1.0] with [r = 0] and
    successor value 0 it gives [N[s,a] = 2] and [Q[s,a] = 0.5]. *)
Theorem update_nonterminal_td `{Countable action}
    (st : Agent (action := action)) (n : nat) (s s' : Z * Z) (a a' : Z)
    (r : num) (rest qs ns : list num) :
  _state_action_values st = Array (NdArray [11; 22; n]%nat qs) ->
  length qs = (11 * 22 * n)%nat ->
  _state_action_visits st = Array (NdArray [11; 22; n]%nat ns) ->
  length ns = (11 * 22 * n)%nat ->
  state_ok s -> state_ok s' -> 0 <= a < Z.of_nat n -> 0 <= a' < Z.of_nat n ->
  items (_past_states st) = [s; s'] ->
  items (_past_actions st) = [a; a'] ->
  items (_past_returns st) = r :: rest ->
  exists n0 q0 q1 : num,
    ns !! flat n s a = Some n0 /\ qs !! flat n s a = Some q0 /\
    qs !! flat n s' a' = Some q1 /\
    let n1 := add n0 one in
    let q := add q0 (div (sub (add r (mul (_gamma st) q1)) q0) n1) in
    let out := _update false st in
    out =
      (set_values (Array (NdArray [11; 22; n]%nat (<[flat n s a := q]> qs)))
         (set_visits (Array (NdArray [11; 22; n]%nat (<[flat n s a := n1]> ns)))
            (set_past_returns (Deque rest (maxlen (_past_returns st))) st)),
       Ok tt) /\
    table_getitem (_state_action_visits out.1) s.1 s.2 a = Ok n1 /\
    table_getitem (_state_action_values out.1) s.1 s.2 a = Ok q /\
    (qs = replicate (11 * 22 * n) zero -> ns = replicate (11 * 22 * n) zero ->
     _gamma st = of_Z 1 -> r = of_Z 1 ->
     n1 = of_Z 1 /\ q = of_Z 1) /\
    (n0 = of_Z 1 -> q0 = of_Z 1 -> q1 = of_Z 0 ->
     _gamma st = of_Z 1 -> r = of_Z 0 ->
     n1 = of_Z 2 /\ q = half).
Proof.
  intros HQ Hqs HN Hns Hs Hs' Ha Ha' Hps Hpa Hpr.
  destruct (table_getitem_ok n ns s a Hs Ha Hns) as (n0 & Hn0 & _).
  destruct (table_getitem_ok n qs s a Hs Ha Hqs) as (q0 & Hq0 & _).
  destruct (table_getitem_ok n qs s' a' Hs' Ha' Hqs) as (q1 & Hq1 & _).
  exists n0, q0, q1. split; [done|]. split; [done|]. split; [done|].
  intros n1 q out.
  assert (Hout : out =
    (set_values (Array (NdArray [11; 22; n]%nat (<[flat n s a := q]> qs)))
       (set_visits (Array (NdArray [11; 22; n]%nat (<[flat n s a := n1]> ns)))
          (set_past_returns (Deque rest (maxlen (_past_returns st))) st)),
     Ok tt)).
  { subst out.
    by rewrite (update_nonterminal_run st s a s' a' r rest _ _
                  (flat n s a) (flat n s a) (flat n s' a') n0 q0 q1)
      by (done || by apply offset3_ok). }
  split; [done|]. rewrite Hout. cbn [fst].
  split; [by apply getitem_after_write|].
  split; [by apply getitem_after_write|].
  split.
  - intros -> -> Hg ->. subst n1 q. rewrite Hg.
    apply lookup_replicate in Hn0 as [-> _].
    apply lookup_replicate in Hq0 as [-> _].
    apply lookup_replicate in Hq1 as [-> _].
    split; vm_compute; reflexivity.
  - intros -> -> -> Hg ->. subst n1 q. rewrite Hg.
    split; vm_compute; reflexivity.
Qed.

(** C4: with a pending reward [r], the terminal [_update] completes, pops
    [r], and uses the target [r] alone: with one recorded pair [(s, a)], or
    with two recorded pairs of which [(s, a)] is the newer, it does exactly
    [N[s,a] += 1] then [Q[s,a] += (r - Q[s,a]) / N[s,a]], nothing else.  With
    one recorded pair, [r = -1] and [N[s,a] = 0], [Q[s,a] = 0] before, this
    gives [N[s,a] = 1] and [Q[s,a] = -1.0]. *)
Theorem update_terminal_mc `{Countable action}
    (st : Agent (action := action)) (n : nat) (s : Z * Z) (a : Z)
    (r : num) (rest qs ns : list num) :
  _state_action_values st = Array (NdArray [11; 22; n]%nat qs) ->
  length qs = (11 * 22 * n)%nat ->
  _state_action_visits st = Array (NdArray [11; 22; n]%nat ns) ->
  length ns = (11 * 22 * n)%nat ->
  state_ok s -> 0 <= a < Z.of_nat n ->
  (items (_past_states st) = [s] /\ items (_past_actions st) = [a]) \/
  (exists (s0 : Z * Z) (a0 : Z),
      items (_past_states st) = [s0; s] /\ items (_past_actions st) = [a0; a]) ->
  items (_past_returns st) = r :: rest ->
  exists n0 q0 : num,
    ns !! flat n s a = Some n0 /\ qs !! flat n s a = Some q0 /\
    let n1 := add n0 one in
    let q := add q0 (div (sub r q0) n1) in
    let out := _update true st in
    out =
      (set_values (Array (NdArray [11; 22; n]%nat (<[flat n s a := q]> qs)))
         (set_visits (Array (NdArray [11; 22; n]%nat (<[flat n s a := n1]> ns)))
            (set_past_returns (Deque rest (maxlen (_past_returns st))) st)),
       Ok tt) /\
    table_getitem (_state_action_visits out.1) s.1 s.2 a = Ok n1 /\
    table_getitem (_state_action_values out.1) s.1 s.2 a = Ok q /\
    (items (_past_states st) = [s] -> r = of_Z (-1) -> n0 = of_Z 0 -> q0 = of_Z 0 ->
     n1 = of_Z 1 /\ q = of_Z (-1)).
Proof.
  intros HQ Hqs HN Hns Hs Ha Hhist Hpr.
  destruct (table_getitem_ok n ns s a Hs Ha Hns) as (n0 & Hn0 & _).
  destruct (table_getitem_ok n qs s a Hs Ha Hqs) as (q0 & Hq0 & _).
  exists n0, q0. split; [done|]. split; [done|].
  intros n1 q out.
  assert (Hout : out =
    (set_values (Array (NdArray [11; 22; n]%nat (<[flat n s a := q]> qs)))
       (set_visits (Array (NdArray [11; 22; n]%nat (<[flat n s a := n1]> ns)))
          (set_past_returns (Deque rest (maxlen (_past_returns st))) st)),
     Ok tt)).
  { subst out. destruct Hhist as [[Hps Hpa]|(s0 & a0 & Hps & Hpa)].
    - by rewrite (update_terminal_one_run st s a r rest _ _
                    (flat n s a) (flat n s a) n0 q0)
        by (done || by apply offset3_ok).
    - by rewrite (update_terminal_two_run st s0 a0 s a r rest _ _
                    (flat n s a) (flat n s a) n0 q0)
        by (done || by apply offset3_ok). }
  split; [done|]. rewrite Hout. cbn [fst].
  split; [by apply getitem_after_write|].
  split; [by apply getitem_after_write|].
  intros _ -> -> ->. subst n1 q. split; vm_compute; reflexivity.
Qed.

(** ** The greedy choice and the exploration probability on a trained agent *)

(** C1 (defect of the code): on the agent [trained] the row of state
    [(1, 10)] is [[0.0, 1.0]], so the action of the claim, the first maximum
    of the row, is [stick]; [take_action((1, 10), explore=False)] returns
    [hit], because [take(state)] reads the flattened table at the two offsets
    1 and 10 and [np.argmax] ranges over these two cells. *)
Theorem take_action_greedy_ignores_row (g : rng) :
  table_row (_state_action_values trained) (1, 10) = Ok [of_Z 0; of_Z 1] /\
  spec_greedy_action trained (1, 10) = Ok stick /\
  table_take (_state_action_values trained) [1; 10] = Ok [of_Z 0; of_Z 0] /\
  (take_action g (1, 10) false trained).2 = Ok hit.
Proof. vm_compute. done. Qed.

(** C2 (defect of the code): on the agent [trained] the visit counts of
    state [(1, 10)] are [[0.0, 1.0]], so the probability of the claim is
    [100 / (100 + 1)]; [take_action] computes [100 / (100 + 0) = 1.0], because
    [take(state)] sums the two cells of the flattened table at offsets 1
    and 10. *)
Theorem take_action_epsilon_ignores_row :
  table_row (_state_action_visits trained) (1, 10) = Ok [of_Z 0; of_Z 1] /\
  spec_epsilon trained (1, 10) = Ok (div (of_Z 100) (of_Z 101)) /\
  table_take (_state_action_visits trained) [1; 10] = Ok [of_Z 0; of_Z 0] /\
  (take_action_epsilon (1, 10) trained).2 = Ok (of_Z 1) /\
  div (of_Z 100) (of_Z 101) <> of_Z 1.
Proof. vm_compute. repeat split; done. Qed.

(** ** The claims at concrete agents *)

Ltac array_by_computation := apply array_parts_eq; vm_compute; reflexivity.

Ltac table_ok_by_computation :=
  match goal with
  | |- table_ok _ ?t =>
      exists (cells t); split; [array_by_computation | vm_compute; reflexivity]
  end.

Ltac wf_by_computation :=
  constructor;
  [ vm_compute; reflexivity
  | vm_compute; reflexivity
  | table_ok_by_computation
  | table_ok_by_computation
  | vm_compute; repeat split; reflexivity ].

Ltac state_ok_by_computation := unfold state_ok; cbn [fst snd]; lia.

Lemma update_nonterminal_td_witness :
  items (_past_states two_pairs_pending) = [(1, 10); (2, 11)] /\
  items (_past_actions two_pairs_pending) = [1; 0] /\
  items (_past_returns two_pairs_pending) = [of_Z 1] /\
  table_getitem (_state_action_visits (_update false two_pairs_pending).1) 1 10 1
    = Ok (of_Z 1) /\
  table_getitem (_state_action_values (_update false two_pairs_pending).1) 1 10 1
    = Ok (of_Z 1).
Proof.
  assert (Hps : items (_past_states two_pairs_pending) = [(1, 10); (2, 11)])
    by (vm_compute; reflexivity).
  assert (Hpa : items (_past_actions two_pairs_pending) = [1; 0])
    by (vm_compute; reflexivity).
  assert (Hpr : items (_past_returns two_pairs_pending) = [of_Z 1])
    by (vm_compute; reflexivity).
  split; [exact Hps|]. split; [exact Hpa|]. split; [exact Hpr|].
  destruct (update_nonterminal_td two_pairs_pending 2 (1, 10) (2, 11) 1 0
              (of_Z 1) [] (replicate (11 * 22 * 2) zero) (replicate (11 * 22 * 2) zero))
    as (n0 & q0 & q1 & _ & _ & _ & _ & HN & HQ & Hzero & _);
    [ array_by_computation | vm_compute; reflexivity
    | array_by_computation | vm_compute; reflexivity
    | state_ok_by_computation | state_ok_by_computation | lia | lia
    | exact Hps | exact Hpa | exact Hpr | ].
  destruct Hzero as [Hn1 Hq];
    [reflexivity | reflexivity | vm_compute; reflexivity | reflexivity |].
  rewrite Hn1 in HN. rewrite Hq in HQ. by split.
Defined.

Lemma update_terminal_mc_witness :
  items (_past_states one_pair_pending) = [(1, 10)] /\
  items (_past_actions one_pair_pending) = [1] /\
  items (_past_returns one_pair_pending) = [of_Z (-1)] /\
  table_getitem (_state_action_visits (_update true one_pair_pending).1) 1 10 1
    = Ok (of_Z 1) /\
  table_getitem (_state_action_values (_update true one_pair_pending).1) 1 10 1
    = Ok (of_Z (-1)).
Proof.
  assert (Hps : items (_past_states one_pair_pending) = [(1, 10)])
    by (vm_compute; reflexivity).
  assert (Hpa : items (_past_actions one_pair_pending) = [1])
    by (vm_compute; reflexivity).
  assert (Hpr : items (_past_returns one_pair_pending) = [of_Z (-1)])
    by (vm_compute; reflexivity).
  split; [exact Hps|]. split; [exact Hpa|]. split; [exact Hpr|].
  destruct (update_terminal_mc one_pair_pending 2 (1, 10) 1
              (of_Z (-1)) [] (replicate (11 * 22 * 2) zero) (replicate (11 * 22 * 2) zero))
    as (n0 & q0 & Hn0 & Hq0 & _ & HN & HQ & Hone);
    [ array_by_computation | vm_compute; reflexivity
    | array_by_computation | vm_compute; reflexivity
    | state_ok_by_computation | lia
    | left; split; [exact Hps | exact Hpa] | exact Hpr | ].
  apply lookup_replicate in Hn0 as [Hn0 _]. apply lookup_replicate in Hq0 as [Hq0 _].
  destruct Hone as [Hn1 Hq]; [exact Hps | reflexivity | exact Hn0 | exact Hq0 |].
  rewrite Hn1 in HN. rewrite Hq in HQ. by split.
Defined.

Lemma save_then_load_witness :
  exists st' : Agent,
    load (os_path_join "out" (_base_name trained), Some 7, "pkl"%string)
      (save "out" (Some 7) (trained, ∅)).1.2 = Ok st' /\
    _state_action_values st' = _state_action_values trained /\
    _state_action_visits st' = _state_action_visits trained /\
    history_cleared st'.
Proof.
  destruct (save_then_load "out" (Some 7) ∅ trained 2)
    as (_ & _ & _ & _ & _ & st' & Hload & HQ & HN & Hc & _);
    [table_ok_by_computation | table_ok_by_computation | lia |].
  exists st'. split; [exact Hload|]. split; [exact HQ|]. split; [exact HN|exact Hc].
Defined.



Lemma update_on_empty_history_fails_witness :
  items (_past_states fresh) = [] /\ items (_past_actions fresh) = [] /\
  (_update false fresh).2 = Raise IndexError /\
  (observe_and_act draw_hit (1, 10) (Some (of_Z 1)) true fresh).2 = Raise IndexError.
Proof.
  assert (Hps : items (_past_states fresh) = []) by (vm_compute; reflexivity).
  assert (Hpa : items (_past_actions fresh) = []) by (vm_compute; reflexivity).
  split; [exact Hps|]. split; [exact Hpa|].
  destruct (update_on_empty_history_fails draw_hit (1, 10) (of_Z 1) false fresh Hps Hpa)
    as (Hupd & Hobs & _).
  split; [|exact Hobs]. by rewrite Hupd.
Defined.

Lemma update_touches_one_cell_witness :
  history_ready false 2 two_pairs_pending /\
  (_update false two_pairs_pending).2 = Ok tt.
Proof.
  assert (Hready : history_ready false 2 two_pairs_pending).
  { right. exists (1, 10), 1, (2, 11), 0.
    split; [vm_compute; reflexivity|]. split; [vm_compute; reflexivity|].
    split; [state_ok_by_computation|]. split; [state_ok_by_computation|]. lia. }
  split; [exact Hready|].
  destruct (update_touches_one_cell false two_pairs_pending) as (_ & _ & Htotal).
  apply (Htotal 2%nat);
    [ table_ok_by_computation | table_ok_by_computation | exact Hready
    | vm_compute; discriminate ].
Defined.


(** C10 as stated fails: with an empty history the call raises before the
    pop, so no reward leaves the queue. *)
Lemma update_pops_counterexample :
  let out := _update true fresh_pending in
  out.2 = Raise IndexError /\
  items (_past_returns fresh_pending) = [of_Z 1] /\
  items (_past_returns out.1) = [of_Z 1] /\
  ~ (exists r : num,
       items (_past_returns fresh_pending) = r :: items (_past_returns out.1)).
Proof.
  cbn zeta. split; [vm_compute; reflexivity|]. split; [vm_compute; reflexivity|].
  split; [vm_compute; reflexivity|].
  intros [r Hr]. vm_compute in Hr. discriminate.
Qed.


(** * Visit counts in binary32 *)

Import Episodes.

(** ** Adding one to a whole number in binary32

    [SpecFloat] rounds a mantissa and an exponent to the format; a whole
    number below 2^24 needs no rounding, and so does its successor. *)

Lemma digits2_pos_iter (m j : positive) :
  digits2_pos (Pos.iter xO m j) = (digits2_pos m + j)%positive.
Proof.
  induction j as [|j IH] using Pos.peano_ind.
  - cbn. now rewrite Pos.add_1_r.
  - rewrite Pos.iter_succ. cbn. rewrite IH. now rewrite Pos.add_succ_r.
Qed.

Lemma iter_pos_iter {A : Type} (f : A -> A) (p : positive) (x : A) :
  SpecFloat.iter_pos f p x = Pos.iter f x p.
Proof.
  revert x. induction p as [p IH|p IH|]; intros x; cbn.
  - rewrite !IH. now rewrite !Pos.iter_swap.
  - now rewrite !IH.
  - reflexivity.
Qed.

Lemma shr_1_iter (q j : positive) :
  Pos.iter shr_1 (Build_shr_record (Zpos (Pos.iter xO q j)) false false) j
  = Build_shr_record (Zpos q) false false.
Proof.
  induction j as [|j IH] using Pos.peano_ind.
  - reflexivity.
  - rewrite Pos.iter_succ_r. rewrite Pos.iter_succ. cbn [shr_1 orb]. exact IH.
Qed.

Lemma digits2_pos_bounds (m : positive) :
  2 ^ (Zpos (digits2_pos m) - 1) <= Zpos m < 2 ^ Zpos (digits2_pos m).
Proof.
  induction m as [m IH|m IH|]; cbn [digits2_pos].
  - rewrite Pos2Z.inj_succ.
    replace (Z.succ (Zpos (digits2_pos m)) - 1) with (Z.succ (Zpos (digits2_pos m) - 1)) by lia.
    rewrite !Z.pow_succ_r by lia. lia.
  - rewrite Pos2Z.inj_succ.
    replace (Z.succ (Zpos (digits2_pos m)) - 1) with (Z.succ (Zpos (digits2_pos m) - 1)) by lia.
    rewrite !Z.pow_succ_r by lia. lia.
  - cbn. lia.
Qed.

Lemma digits2_pos_le (m : positive) (n : Z) :
  0 <= n -> Zpos m < 2 ^ n -> Zpos (digits2_pos m) <= n.
Proof.
  intros Hn Hm. destruct (Z.le_gt_cases (Zpos (digits2_pos m)) n) as [|Hgt]; [assumption|].
  pose proof (digits2_pos_bounds m) as [Hlo _].
  assert (2 ^ n <= 2 ^ (Zpos (digits2_pos m) - 1)) by (apply Z.pow_le_mono_r; lia).
  lia.
Qed.

Lemma fexp_normal (e : Z) : -125 <= e -> fexp prec emax e = e - 24.
Proof. intros He. unfold fexp, emin, prec, emax. lia. Qed.

Lemma round_aux_exact (mz : positive) (ez : Z) :
  Zpos (digits2_pos mz) = 24 -> -149 <= ez <= 104 ->
  binary_round_aux prec emax false (Zpos mz) ez loc_Exact = S754_finite false mz ez.
Proof.
  intros Hd He. unfold binary_round_aux.
  assert (Hshr : shr_fexp prec emax (Zpos mz) ez loc_Exact
                 = (Build_shr_record (Zpos mz) false false, ez)).
  { unfold shr_fexp. cbn [Zdigits2 shr_record_of_loc]. rewrite Hd.
    rewrite fexp_normal by lia. replace (24 + ez - 24 - ez) with 0 by lia. reflexivity. }
  rewrite Hshr. cbn [shr_m loc_of_shr_record round_nearest_even]. rewrite Hshr.
  cbn [shr_m]. unfold emax, prec.
  destruct (Z.leb_spec ez (128 - 24)); [reflexivity|lia].
Qed.

Lemma round_shift_left (M : positive) (e : Z) :
  Zpos (digits2_pos M) <= 24 ->
  -149 <= Zpos (digits2_pos M) + e - 24 <= 104 ->
  binary_round prec emax false M e
  = S754_finite false (Pos.shiftl M (Z.to_N (24 - Zpos (digits2_pos M))))
      (Zpos (digits2_pos M) + e - 24).
Proof.
  intros Hd He. unfold binary_round. rewrite fexp_normal by lia.
  unfold shl_align.
  destruct (Zpos (digits2_pos M) + e - 24 - e) as [|p|p] eqn:Hs; [| lia |].
  - replace (24 - Zpos (digits2_pos M)) with 0 by lia. cbv [Z.to_N Pos.shiftl].
    replace (Zpos (digits2_pos M) + e - 24) with e by lia.
    apply round_aux_exact; lia.
  - replace (24 - Zpos (digits2_pos M)) with (Zpos p) by lia. cbv [Z.to_N Pos.shiftl].
    apply round_aux_exact; [|lia].
    rewrite digits2_pos_iter. lia.
Qed.

Lemma round_shift_right (q n : positive) (e : Z) :
  Zpos (digits2_pos q) = 24 -> -149 <= e + Zpos n <= 104 ->
  binary_round prec emax false (Pos.iter xO q n) e = S754_finite false q (e + Zpos n).
Proof.
  intros Hd He. unfold binary_round. rewrite digits2_pos_iter.
  rewrite fexp_normal by lia. unfold shl_align.
  destruct (Zpos (digits2_pos q + n) + e - 24 - e) as [|p|p] eqn:Hs; [lia| |lia].
  assert (p = n) as -> by lia.
  unfold binary_round_aux.
  assert (Hshr : shr_fexp prec emax (Zpos (Pos.iter xO q n)) e loc_Exact
                 = (Build_shr_record (Zpos q) false false, e + Zpos n)).
  { unfold shr_fexp. cbn [Zdigits2 shr_record_of_loc]. rewrite digits2_pos_iter.
    rewrite fexp_normal by lia.
    replace (Zpos (digits2_pos q + n) + e - 24 - e) with (Zpos n) by lia.
    unfold shr. rewrite iter_pos_iter. now rewrite shr_1_iter. }
  rewrite Hshr. cbn [shr_m loc_of_shr_record round_nearest_even].
  assert (Hshr' : shr_fexp prec emax (Zpos q) (e + Zpos n) loc_Exact
                  = (Build_shr_record (Zpos q) false false, e + Zpos n)).
  { unfold shr_fexp. cbn [Zdigits2 shr_record_of_loc]. rewrite Hd.
    rewrite fexp_normal by lia.
    replace (24 + (e + Zpos n) - 24 - (e + Zpos n)) with 0 by lia. reflexivity. }
  rewrite Hshr'. cbn [shr_m]. unfold emax, prec.
  destruct (Z.leb_spec (e + Zpos n) (128 - 24)); [reflexivity|lia].
Qed.

Lemma Zpos_iter_xO (m p : positive) : Zpos (Pos.iter xO m p) = Zpos m * 2 ^ Zpos p.
Proof.
  induction p as [|p IH] using Pos.peano_ind.
  - cbn. lia.
  - rewrite Pos.iter_succ. rewrite Pos2Z.inj_xO, IH, Pos2Z.inj_succ.
    rewrite Z.pow_succ_r by lia. lia.
Qed.

Lemma Zpos_shiftl (m : positive) (n : Z) :
  0 <= n -> Zpos (Pos.shiftl m (Z.to_N n)) = Zpos m * 2 ^ n.
Proof.
  intros Hn. destruct n as [|p|p].
  - cbv [Z.to_N Pos.shiftl]. lia.
  - cbv [Z.to_N Pos.shiftl]. apply Zpos_iter_xO.
  - lia.
Qed.

Lemma of_Z_pos (m : positive) :
  Zpos m < 2 ^ 24 ->
  of_Z (Zpos m)
  = S754_finite false (Pos.shiftl m (Z.to_N (24 - Zpos (digits2_pos m))))
      (Zpos (digits2_pos m) - 24).
Proof.
  intros Hm. pose proof (digits2_pos_le m 24 ltac:(lia) Hm) as Hd.
  unfold of_Z. cbn [binary_normalize].
  rewrite round_shift_left by lia. f_equal; lia.
Qed.

Lemma of_Z_one : of_Z 1 = S754_finite false 8388608 (-23).
Proof. reflexivity. Qed.

(** Below 2^24 the sum with 1 is exact. *)
Lemma add_one_exact (k : Z) :
  0 <= k < 2 ^ 24 - 1 -> SFadd prec emax (of_Z k) (of_Z 1) = of_Z (k + 1).
Proof.
  intros Hk. destruct k as [|m|m]; [reflexivity| |lia].
  pose proof (digits2_pos_le m 24 ltac:(lia) ltac:(lia)) as Hd.
  pose proof (digits2_pos_bounds m) as Hdm.
  assert (Hd1 : 1 <= Zpos (digits2_pos m)) by lia.
  rewrite (of_Z_pos m) by lia. rewrite of_Z_one.
  cbn [SFadd]. rewrite Z.min_r by lia.
  set (mx := Pos.shiftl m (Z.to_N (24 - Zpos (digits2_pos m)))).
  assert (Hmx : Zpos mx = Zpos m * 2 ^ (24 - Zpos (digits2_pos m)))
    by (apply Zpos_shiftl; lia).
  assert (HA : Zpos (fst (shl_align mx (Zpos (digits2_pos m) - 24) (-23)))
               = Zpos m * 2 ^ 23).
  { unfold shl_align.
    destruct (-23 - (Zpos (digits2_pos m) - 24)) as [|p|p] eqn:Hs; [|lia|].
    - cbn [fst]. rewrite Hmx. f_equal. f_equal. lia.
    - cbn [fst]. rewrite Zpos_iter_xO, Hmx, <- Z.mul_assoc, <- Z.pow_add_r by lia.
      f_equal. f_equal. lia. }
  assert (HB : fst (shl_align 8388608 (-23) (-23)) = 8388608%positive) by reflexivity.
  rewrite HB. cbn [cond_Zopp].
  change (Zpos (fst (shl_align mx (Zpos (digits2_pos m) - 24) (-23))) + 8388608)
    with (Zpos (fst (shl_align mx (Zpos (digits2_pos m) - 24) (-23)) + 8388608)).
  cbn [binary_normalize].
  set (m' := (m + 1)%positive).
  pose proof (digits2_pos_le m' 24 ltac:(lia) ltac:(lia)) as Hd'.
  pose proof (digits2_pos_bounds m') as Hdm'.
  assert (Hd2 : 2 <= Zpos (digits2_pos m')).
  { destruct (Z.le_gt_cases 2 (Zpos (digits2_pos m'))) as [|Hlt]; [assumption|].
    assert (Zpos (digits2_pos m') = 1) as Heq by lia. rewrite Heq in Hdm'.
    change (2 ^ 1) with 2 in Hdm'. lia. }
  set (q := Pos.shiftl m' (Z.to_N (24 - Zpos (digits2_pos m')))).
  assert (Hq : Zpos q = Zpos m' * 2 ^ (24 - Zpos (digits2_pos m')))
    by (apply Zpos_shiftl; lia).
  destruct (Zpos (digits2_pos m') - 1) as [|n|n] eqn:Hn; [lia| |lia].
  assert (Hsum : (fst (shl_align mx (Zpos (digits2_pos m) - 24) (-23)) + 8388608)%positive
                 = Pos.iter xO q n).
  { apply Pos2Z.inj. rewrite Pos2Z.inj_add, HA, Zpos_iter_xO, Hq.
    rewrite <- Z.mul_assoc, <- Z.pow_add_r by lia.
    replace (24 - Zpos (digits2_pos m') + Zpos n) with 23 by lia.
    change (Zpos 8388608) with (2 ^ 23). lia. }
  rewrite Hsum.
  rewrite round_shift_right.
  - change (Z.pos m + 1) with (Zpos m').
    rewrite (of_Z_pos m') by lia. f_equal. lia.
  - subst q. destruct (24 - Zpos (digits2_pos m')) as [|p|p] eqn:Hp; [| |lia].
    + cbv [Z.to_N Pos.shiftl]. lia.
    + cbv [Z.to_N Pos.shiftl]. rewrite digits2_pos_iter. lia.
  - lia.
Qed.

Lemma add_one_last : SFadd prec emax (of_Z (2 ^ 24 - 1)) (of_Z 1) = of_Z (2 ^ 24).
Proof. vm_compute. reflexivity. Qed.

Lemma add_one_saturated : SFadd prec emax (of_Z (2 ^ 24)) (of_Z 1) = of_Z (2 ^ 24).
Proof. vm_compute. reflexivity. Qed.

(** A count held by a binary32 cell goes up by one until it is 2^24. *)
Lemma add_one_count (k : Z) :
  0 <= k <= 2 ^ 24 ->
  SFadd prec emax (of_Z k) (of_Z 1) = of_Z (Z.min (k + 1) (2 ^ 24)).
Proof.
  intros Hk.
  destruct (Z.eq_dec k (2 ^ 24)) as [->|Hne]; [exact add_one_saturated|].
  destruct (Z.eq_dec k (2 ^ 24 - 1)) as [->|Hne']; [exact add_one_last|].
  rewrite Z.min_l by lia. apply add_one_exact. lia.
Qed.

Lemma whole_count_succ (x : spec_float) :
  whole_count x ->
  exists k : Z, 0 <= k <= 16777216 /\ x = of_Z k /\
    add x one = of_Z (Z.min (k + 1) 16777216) /\ whole_count (add x one).
Proof.
  intros (k & Hk & ->). exists k. split; [done|]. split; [done|].
  assert (Hadd : add (of_Z k) one = of_Z (Z.min (k + 1) 16777216))
    by (apply add_one_count; lia).
  split; [exact Hadd|]. rewrite Hadd. eexists. split; [|reflexivity]. lia.
Qed.

Lemma observe_whole_counts `{Countable action} (g : rng) s (reward : option num)
    (terminate : bool) (st : Agent (action := action)) :
  Forall whole_count (cells (_state_action_visits st)) ->
  Forall whole_count
    (cells (_state_action_visits (observe_and_act g s reward terminate st).1)).
Proof.
  intros Hall.
  destruct (observe_counts g s reward terminate st) as [->|(o & old & Hold & ->)];
    [done|].
  apply Forall_insert; [done|].
  destruct (whole_count_succ old) as (k & _ & _ & _ & Hw); [|done].
  by eapply Forall_lookup_1.
Qed.

Lemma after_calls_whole_counts `{Countable action} (cs : list call)
    (st : Agent (action := action)) :
  Forall whole_count (cells (_state_action_visits st)) ->
  Forall whole_count (cells (_state_action_visits (after_calls cs st))).
Proof.
  revert st. induction cs as [|c cs IH]; intros st Hall; [done|].
  cbn [after_calls foldl]. apply IH. by apply observe_whole_counts.
Qed.

(** X15: on an agent that was never saved or loaded (constructed, then
    driven by [observe_and_act] alone, so that its tables are the float32
    arrays of [__init__]) every visit count is a whole number between 0 and
    2^24 = 16777216, held exactly, and a further call leaves the counts as
    they are or replaces one count [k] by [k + 1], except that a count of
    2^24 stays 2^24: in binary32 2^24 + 1 rounds back to 2^24. *)
Theorem visit_counts_stop_at_2_24 `{Countable action}
    (possible_actions : list action) (n_0 gamma : num) (base_name : string)
    (cs : list call) (g : rng) (s : Z * Z) (reward : option num) (terminate : bool) :
  let st := after_calls cs (init possible_actions n_0 gamma base_name) in
  let st' := (observe_and_act g s reward terminate st).1 in
  Forall whole_count (cells (_state_action_visits st)) /\
  (cells (_state_action_visits st') = cells (_state_action_visits st) \/
   exists (o : nat) (k : Z),
     0 <= k <= 16777216 /\
     cells (_state_action_visits st) !! o = Some (of_Z k) /\
     cells (_state_action_visits st')
       = <[o := of_Z (Z.min (k + 1) 16777216)]> (cells (_state_action_visits st))).
Proof.
  cbn zeta.
  assert (Hall : Forall whole_count
            (cells (_state_action_visits
                      (after_calls cs (init possible_actions n_0 gamma base_name))))).
  { apply after_calls_whole_counts. cbn. apply Forall_replicate.
    exists 0. split; [lia|reflexivity]. }
  split; [exact Hall|].
  destruct (observe_counts g s reward terminate
              (after_calls cs (init possible_actions n_0 gamma base_name)))
    as [->|(o & old & Hold & ->)]; [by left|].
  right.
  destruct (whole_count_succ old) as (k & Hk & -> & -> & _);
    [by eapply Forall_lookup_1|].
  by exists o, k.
Qed.

(** * The further properties at concrete agents *)

Lemma init_action_ids_witness :
  [hit; stick] !! 1%nat = Some stick /\
  _id2action fresh !! 1 = Some stick /\
  exists j : nat, _action2id fresh !! stick = Some (Z.of_nat j).
Proof.
  assert (Hi : [hit; stick] !! 1%nat = Some stick) by reflexivity.
  split; [exact Hi|].
  destruct (init_action_ids (Ar := arith) [hit; stick] (of_Z 100) (of_Z 1) "td_learning" 1 stick Hi)
    as (Hid & j & Hj & _).
  split; [exact Hid|]. exists j. exact Hj.
Defined.

Lemma observe_window_slides_witness :
  items (_past_states two_pairs) = [(1, 10); (2, 11)] /\
  exists (x : string) (id : Z),
    _action2id two_pairs !! x = Some id /\
    _past_states (observe_and_act draw_hit (3, 12) None false two_pairs).1
      = Deque [(2, 11); (3, 12)] 2.
Proof.
  assert (Hwf : wf two_pairs) by wf_by_computation.
  assert (Hps : items (_past_states two_pairs) = [(1, 10); (2, 11)])
    by (vm_compute; reflexivity).
  assert (Hpa : items (_past_actions two_pairs) = [1; 0]) by (vm_compute; reflexivity).
  split; [exact Hps|].
  destruct (observe_window_slides draw_hit (3, 12) two_pairs (1, 10) (2, 11) 1 0)
    as (x & id & Hid & Hrun);
    [ exact Hwf | state_ok_by_computation | vm_compute; lia | exact Hps | exact Hpa | ].
  exists x, id. split; [exact Hid|].
  exact (f_equal (fun o => _past_states o.1) Hrun).
Defined.

Lemma observe_reward_step_witness :
  items (_past_states one_pair) = [(1, 10)] /\
  exists x : string,
    (observe_and_act draw_hit (2, 11) (Some (of_Z 1)) false one_pair).2 = Ok (Some x).
Proof.
  assert (Hwf : wf one_pair) by wf_by_computation.
  assert (Hps : items (_past_states one_pair) = [(1, 10)]) by (vm_compute; reflexivity).
  assert (Hpa : items (_past_actions one_pair) = [1]) by (vm_compute; reflexivity).
  split; [exact Hps|].
  destruct (observe_reward_step draw_hit (2, 11) (of_Z 1) one_pair (1, 10) 1
              (cells (_state_action_values one_pair))
              (cells (_state_action_visits one_pair)))
    as (x & id & n0 & q0 & q1 & _ & _ & _ & _ & Hrun);
    [ exact Hwf | vm_compute; lia | array_by_computation | array_by_computation
    | state_ok_by_computation | state_ok_by_computation | vm_compute; split; [discriminate|reflexivity]
    | left; split; [exact Hps|exact Hpa] | vm_compute; reflexivity | ].
  exists x. exact (f_equal snd Hrun).
Defined.

Lemma observe_terminal_step_witness :
  items (_past_states one_pair) = [(1, 10)] /\
  (observe_and_act draw_hit (5, 5) (Some (of_Z (-1))) true one_pair).2 = Ok None.
Proof.
  assert (Hwf : wf one_pair) by wf_by_computation.
  assert (Hps : items (_past_states one_pair) = [(1, 10)]) by (vm_compute; reflexivity).
  assert (Hpa : items (_past_actions one_pair) = [1]) by (vm_compute; reflexivity).
  split; [exact Hps|].
  destruct (observe_terminal_step draw_hit (5, 5) (of_Z (-1)) one_pair (1, 10) 1
              (cells (_state_action_values one_pair))
              (cells (_state_action_visits one_pair)))
    as (n0 & q0 & _ & _ & Hrun);
    [ exact Hwf | array_by_computation | array_by_computation
    | state_ok_by_computation | vm_compute; split; [discriminate|reflexivity]
    | left; split; [exact Hps|exact Hpa] | vm_compute; reflexivity | ].
  exact (f_equal snd Hrun).
Defined.

Lemma update_target_out_of_range_witness :
  items (_past_states older_beyond_pending) = [(11, 0); (1, 1)] /\
  out_of_range 11 11 /\
  (_update false older_beyond_pending).2 = Raise IndexError /\
  items (_past_returns (_update false older_beyond_pending).1) = [].
Proof.
  assert (Hps : items (_past_states older_beyond_pending) = [(11, 0); (1, 1)])
    by (vm_compute; reflexivity).
  assert (Hout : out_of_range 11 11) by (unfold out_of_range; cbn; lia).
  split; [exact Hps|]. split; [exact Hout|].
  rewrite (update_target_out_of_range false older_beyond_pending (11, 0) 0
             (of_Z 1) [] (cells (_state_action_visits older_beyond_pending)));
    [ by split
    | array_by_computation | vm_compute; reflexivity
    | right; right; exists (1, 1), 0;
      split; [reflexivity|]; split; [exact Hps|vm_compute; reflexivity]
    | left; exact Hout ].
Defined.

Lemma update_successor_out_of_range_witness :
  items (_past_states newer_beyond_pending) = [(1, 10); (11, 0)] /\
  (_update false newer_beyond_pending).2 = Raise IndexError.
Proof.
  assert (Hps : items (_past_states newer_beyond_pending) = [(1, 10); (11, 0)])
    by (vm_compute; reflexivity).
  split; [exact Hps|].
  destruct (update_successor_out_of_range newer_beyond_pending (1, 10) (11, 0) 1 0
              (of_Z 1) [] (cells (_state_action_values newer_beyond_pending))
              (cells (_state_action_visits newer_beyond_pending)))
    as (n0 & _ & Hrun);
    [ array_by_computation | vm_compute; reflexivity
    | array_by_computation | vm_compute; reflexivity
    | exact Hps | vm_compute; reflexivity | vm_compute; reflexivity
    | state_ok_by_computation | vm_compute; split; [discriminate|reflexivity]
    | left; unfold out_of_range; cbn; lia | ].
  exact (f_equal snd Hrun).
Defined.

Lemma greedy_choice_among_first_two_witness :
  (take_action draw_hit (1, 10) false trained).2 = Ok hit /\
  (_possible_actions trained !! 0%nat = Some hit \/
   _possible_actions trained !! 1%nat = Some hit).
Proof.
  assert (Hres : (take_action draw_hit (1, 10) false trained).2 = Ok hit)
    by (vm_compute; reflexivity).
  split; [exact Hres|].
  apply (greedy_choice_among_first_two draw_hit (1, 10) trained
           (take_action draw_hit (1, 10) false trained).1 hit).
  rewrite <- Hres. apply surjective_pairing.
Defined.

Lemma training_never_changes_choice_witness :
  Forall (fun c => dealt (call_state c)) episode /\
  (take_action draw_hit (1, 10) false (after_calls episode fresh)).2 =
  (take_action draw_hit (1, 10) false fresh).2.
Proof.
  assert (Hd : dealt (1, 10)) by (unfold dealt, state_ok; cbn [fst snd]; lia).
  assert (Hcs : Forall (fun c => dealt (call_state c)) episode)
    by (constructor; [exact Hd|constructor; [exact Hd|constructor]]).
  split; [exact Hcs|].
  apply (training_never_changes_choice (Ar := arith) [hit; stick] (of_Z 100) (of_Z 1) "td_learning"
           episode draw_hit (1, 10) false);
    [cbn; lia | exact Hcs | state_ok_by_computation].
Defined.

Lemma state_beyond_table_fails_late_witness :
  out_of_range 11 11 /\
  exists (x : string) (st1 : Agent),
    observe_and_act draw_hit (11, 0) None false fresh = (st1, Ok (Some x)) /\
    (observe_and_act draw_hit (1, 1) (Some (of_Z 1)) false st1).2 = Raise IndexError.
Proof.
  assert (Hout : out_of_range 11 11) by (unfold out_of_range; cbn; lia).
  split; [exact Hout|].
  destruct (state_beyond_table_fails_late draw_hit draw_hit (11, 0) (1, 1) (of_Z 1) fresh)
    as (x & st1 & Hrun & _ & Hfail & _);
    [ wf_by_computation | vm_compute; lia
    | repeat split; vm_compute; reflexivity
    | vm_compute; split; [discriminate|reflexivity]
    | vm_compute; split; [discriminate|reflexivity]
    | left; exact Hout | state_ok_by_computation | ].
  exists x, st1. split; [exact Hrun|exact Hfail].
Defined.

Lemma save_drops_the_episode_witness :
  items (_past_states two_pairs) = [(1, 10); (2, 11)] /\
  (save "out" None (two_pairs, ∅)).2 = Ok tt /\
  (observe_and_act draw_hit (3, 12) (Some (of_Z 1)) false
     (save "out" None (two_pairs, ∅)).1.1).2 = Raise IndexError.
Proof.
  split; [vm_compute; reflexivity|].
  destruct (save_drops_the_episode "out" None ∅ draw_hit (3, 12) (of_Z 1) false two_pairs)
    as (Hres & _ & Hfail); [wf_by_computation | vm_compute; lia |].
  split; [exact Hres|exact Hfail].
Defined.

Lemma pending_reward_is_used_first_witness :
  items (_past_states stalled) = [(1, 10)] /\
  items (_past_returns stalled) = [of_Z 1] /\
  exists x : string,
    (observe_and_act draw_hit (2, 11) (Some (of_Z 0)) false stalled).2 = Ok (Some x) /\
    _past_returns (observe_and_act draw_hit (2, 11) (Some (of_Z 0)) false stalled).1
      = Deque [of_Z 0] 2.
Proof.
  assert (Hwf : wf stalled) by wf_by_computation.
  assert (Hps : items (_past_states stalled) = [(1, 10)]) by (vm_compute; reflexivity).
  assert (Hpa : items (_past_actions stalled) = [1]) by (vm_compute; reflexivity).
  assert (Hpr : items (_past_returns stalled) = [of_Z 1]) by (vm_compute; reflexivity).
  split; [exact Hps|]. split; [exact Hpr|].
  destruct (pending_reward_is_used_first draw_hit (2, 11) (of_Z 1) (of_Z 0) stalled
              (1, 10) 1 (cells (_state_action_values stalled))
              (cells (_state_action_visits stalled)))
    as (x & id & n0 & q0 & q1 & _ & _ & _ & _ & Hrun);
    [ exact Hwf | vm_compute; lia | array_by_computation | array_by_computation
    | state_ok_by_computation | state_ok_by_computation
    | vm_compute; split; [discriminate|reflexivity]
    | left; split; [exact Hps|exact Hpa] | exact Hpr | ].
  exists x. split; [exact (f_equal snd Hrun)|].
  exact (f_equal (fun o => _past_returns o.1) Hrun).
Defined.
